(** * Price-history scraper: shape validation, normalisation and fallback

    A shallow embedding of the extraction logic of
    [src/scrape_data.py] (class [PriceHistoryScraper]) and
    [src/price_before.py] (class [EnhancedPriceHistoryScraper]).

    Python values decoded from JSON are an inductive type [pyval];
    Python exceptions are the [Raise] branch of a small error monad, and
    [try ... except] is [catch].  Text is a list of Unicode code points,
    as a Python [str] is.  The collaborators the scrapers only consume
    (the regular-expression engine, the JSON decoder, the HTML parser, the
    HTTP session, the browser driver, the random generator, the per-process
    string hash and floating-point arithmetic) are section variables or
    fields of an environment record. *)

From Stdlib Require Import String Ascii.
From Stdlib Require Import ZArith List Bool Lia.
Import ListNotations.
Local Open Scope Z_scope.

Set Implicit Arguments.

(** ** Text *)

(** A Python [str]: a sequence of code points. *)
Definition str := list Z.

Fixpoint u (s : string) : str :=
  match s with
  | EmptyString => []
  | String c s' => Z.of_nat (nat_of_ascii c) :: u s'
  end.

Fixpoint str_eqb (a b : str) : bool :=
  match a, b with
  | [], [] => true
  | x :: a', y :: b' => (x =? y) && str_eqb a' b'
  | _, _ => false
  end.

(** [x in [k1, k2, ...]] for a list of strings. *)
Definition str_mem (k : str) (ks : list str) : bool :=
  existsb (str_eqb k) ks.

Fixpoint str_prefix (p s : str) : bool :=
  match p, s with
  | [], _ => true
  | x :: p', y :: s' => (x =? y) && str_prefix p' s'
  | _ :: _, [] => false
  end.

(** [p in s] for two strings: substring search. *)
Fixpoint str_contains (p s : str) : bool :=
  str_prefix p s ||
  match s with
  | [] => false
  | _ :: s' => str_contains p s'
  end.

(** [Py_UNICODE_ISSPACE]: the characters [str.split()], [str.strip()] and
    the pattern class [\s] treat as white space. *)
Definition py_isspace (c : Z) : bool :=
  ((9 <=? c) && (c <=? 13)) || ((28 <=? c) && (c <=? 32)) ||
  (c =? 133) || (c =? 160) || (c =? 5760) ||
  ((8192 <=? c) && (c <=? 8202)) || (c =? 8232) || (c =? 8233) ||
  (c =? 8239) || (c =? 8287) || (c =? 12288).

(** The alphanumeric code points of Latin-1 (letters, decimal digits and
    the other numeric characters), as [str.isalnum] reports them. *)
Definition latin1_isalnum (c : Z) : bool :=
  ((48 <=? c) && (c <=? 57)) || ((65 <=? c) && (c <=? 90)) ||
  ((97 <=? c) && (c <=? 122)) ||
  (c =? 170) || (c =? 178) || (c =? 179) || (c =? 181) ||
  (c =? 185) || (c =? 186) || ((188 <=? c) && (c <=? 190)) ||
  ((192 <=? c) && (c <=? 214)) || ((216 <=? c) && (c <=? 246)) ||
  ((248 <=? c) && (c <=? 255)).

(** ** Exceptions *)

Inductive exn : Type :=
| TypeError | IndexError | KeyError | AttributeError
| JSONDecodeError | OverflowError | IOError.

Inductive exc (A : Type) : Type :=
| Ok (a : A)
| Raise (e : exn).
Arguments Ok {A} a.
Arguments Raise {A} e.

Definition bind {A B} (m : exc A) (k : A -> exc B) : exc B :=
  match m with
  | Ok a => k a
  | Raise e => Raise e
  end.

(** [try: body  except: handler] with a bare [except]. *)
Definition catch {A} (body : exc A) (handler : exc A) : exc A :=
  match body with
  | Ok a => Ok a
  | Raise _ => handler
  end.

Declare Scope exc_scope.
Delimit Scope exc_scope with exc.
Notation "x <- m ;; k" := (bind m (fun x => k))
  (at level 61, m at next level, right associativity) : exc_scope.
Local Open Scope exc_scope.

(** [a and b] on conditions that may raise: [b] is evaluated only when
    [a] is true. *)
Definition andM (a b : exc bool) : exc bool :=
  x <- a ;; if x then b else Ok false.

(** [any(f(k) for k in ks)]: stops at the first true. *)
Fixpoint anyM {A} (f : A -> exc bool) (ks : list A) : exc bool :=
  match ks with
  | [] => Ok false
  | k :: ks' => x <- f k ;; if x then Ok true else anyM f ks'
  end.

Inductive re_flag : Type := IGNORECASE | DOTALL.

(** ** Decoded values *)

(** What [json.loads], [response.json()] and the driver's script results
    are made of.  A [dict] keeps its items in insertion order; a float is
    kept as a decimal mantissa and exponent, which is enough for its
    truth value. *)
#[warnings="-register-all"]
Inductive pyval : Type :=
| PNone
| PBool (b : bool)
| PInt (n : Z)
| PFloat (m e : Z)
| PStr (s : str)
| PList (l : list pyval)
| PDict (d : list (str * pyval)).

(** [bool(v)]. *)
Definition truthy (v : pyval) : bool :=
  match v with
  | PNone => false
  | PBool b => b
  | PInt n => negb (n =? 0)
  | PFloat m _ => negb (m =? 0)
  | PStr s => match s with [] => false | _ => true end
  | PList l => match l with [] => false | _ => true end
  | PDict d => match d with [] => false | _ => true end
  end.

Definition isinstance_dict (v : pyval) : bool :=
  match v with PDict _ => true | _ => false end.

Definition isinstance_list (v : pyval) : bool :=
  match v with PList _ => true | _ => false end.

Definition is_none (v : pyval) : bool :=
  match v with PNone => true | _ => false end.

(** Key membership and lookup in a [dict]'s items. *)
Definition has_key (k : str) (d : list (str * pyval)) : bool :=
  existsb (fun kv => str_eqb k (fst kv)) d.

Definition lookup (k : str) (d : list (str * pyval)) : option pyval :=
  match find (fun kv => str_eqb k (fst kv)) d with
  | Some kv => Some (snd kv)
  | None => None
  end.

Definition is_pstr (k : str) (v : pyval) : bool :=
  match v with PStr s => str_eqb k s | _ => false end.

(** [k in v] for a string [k]. *)
Definition py_in (k : str) (v : pyval) : exc bool :=
  match v with
  | PDict d => Ok (has_key k d)
  | PList l => Ok (existsb (is_pstr k) l)
  | PStr s => Ok (str_contains k s)
  | _ => Raise TypeError
  end.

(** [len(v)]. *)
Definition py_len (v : pyval) : exc Z :=
  match v with
  | PDict d => Ok (Z.of_nat (length d))
  | PList l => Ok (Z.of_nat (length l))
  | PStr s => Ok (Z.of_nat (length s))
  | _ => Raise TypeError
  end.

(** [v[i]] for a non-negative integer [i]; a [dict] decoded from JSON has
    string keys only, so an integer subscript is a [KeyError]. *)
Definition py_getitem_int (v : pyval) (i : Z) : exc pyval :=
  match v with
  | PList l =>
      if (0 <=? i) && (i <? Z.of_nat (length l))
      then Ok (nth (Z.to_nat i) l PNone) else Raise IndexError
  | PStr s =>
      if (0 <=? i) && (i <? Z.of_nat (length s))
      then Ok (PStr [nth (Z.to_nat i) s 0]) else Raise IndexError
  | PDict _ => Raise KeyError
  | _ => Raise TypeError
  end.

(** [v[k]] for a string key. *)
Definition py_getitem_str (v : pyval) (k : str) : exc pyval :=
  match v with
  | PDict d =>
      match lookup k d with
      | Some x => Ok x
      | None => Raise KeyError
      end
  | _ => Raise TypeError
  end.

(** [key.lower()]: exact on ASCII text; the lower-casing of text with a
    code point above 127 is left to the Unicode tables of the runtime,
    [unicode_lower]. *)
Definition ascii_lower (c : Z) : Z :=
  if (65 <=? c) && (c <=? 90) then c + 32 else c.

Definition py_lower (unicode_lower : str -> str) (s : str) : str :=
  if forallb (fun c => c <? 128) s then map ascii_lower s
  else unicode_lower s.

(** Iterating a value: the items of a list, the keys of a dict, the
    characters of a string. *)
Definition py_iter (v : pyval) : exc (list pyval) :=
  match v with
  | PList l => Ok l
  | PDict d => Ok (map (fun kv => PStr (fst kv)) d)
  | PStr s => Ok (map (fun c => PStr [c]) s)
  | _ => Raise TypeError
  end.

Definition py_items (v : pyval) : exc (list (str * pyval)) :=
  match v with
  | PDict d => Ok d
  | _ => Raise AttributeError
  end.

(** ** Dates

    The part of Python's [datetime] the generators use.  A [datetime] at
    midnight is kept as its proleptic Gregorian ordinal (day 1 is
    0001-01-01); the calendar fields are recovered by [ord2ymd], as
    [date.fromordinal] does. *)

Module Datetime.

Definition MAXORDINAL : Z := 3652059.

Definition is_leap (y : Z) : bool :=
  (y mod 4 =? 0) && (negb (y mod 100 =? 0) || (y mod 400 =? 0)).

Definition DAYS_IN_MONTH : list Z :=
  [-1; 31; 28; 31; 30; 31; 30; 31; 31; 30; 31; 30; 31].

Definition DAYS_BEFORE_MONTH : list Z :=
  [-1; 0; 31; 59; 90; 120; 151; 181; 212; 243; 273; 304; 334].

Definition days_before_year (year : Z) : Z :=
  let y := year - 1 in
  y * 365 + y / 4 - y / 100 + y / 400.

Definition days_before_month (year month : Z) : Z :=
  nth (Z.to_nat month) DAYS_BEFORE_MONTH 0 +
  (if (2 <? month) && is_leap year then 1 else 0).

Definition ymd2ord (year month day : Z) : Z :=
  days_before_year year + days_before_month year month + day.

Definition DI400Y : Z := 146097.
Definition DI100Y : Z := 36524.
Definition DI4Y : Z := 1461.

Definition ord2ymd (ordinal : Z) : Z * Z * Z :=
  let n := ordinal - 1 in
  let n400 := n / DI400Y in
  let n := n mod DI400Y in
  let year := n400 * 400 + 1 in
  let n100 := n / DI100Y in
  let n := n mod DI100Y in
  let n4 := n / DI4Y in
  let n := n mod DI4Y in
  let n1 := n / 365 in
  let n := n mod 365 in
  let year := year + n100 * 100 + n4 * 4 + n1 in
  if (n1 =? 4) || (n100 =? 4) then (year - 1, 12, 31) else
  let leapyear := (n1 =? 3) && (negb (n4 =? 24) || (n100 =? 3)) in
  let month := Z.shiftr (n + 50) 5 in
  let preceding :=
    nth (Z.to_nat month) DAYS_BEFORE_MONTH 0 +
    (if (2 <? month) && leapyear then 1 else 0) in
  if n <? preceding then
    let month := month - 1 in
    let preceding :=
      preceding -
      (nth (Z.to_nat month) DAYS_IN_MONTH 0 +
       (if (month =? 2) && leapyear then 1 else 0)) in
    (year, month, n - preceding + 1)
  else (year, month, n - preceding + 1).

(** A [datetime] whose time of day is 00:00:00. *)
Record datetime : Type := fromordinal { toordinal : Z }.

(** [datetime(year, month, day)]. *)
Definition mk (year month day : Z) : datetime :=
  fromordinal (ymd2ord year month day).

(** [a <= b]. *)
Definition le (a b : datetime) : bool := toordinal a <=? toordinal b.

(** [(a - b).days]. *)
Definition days_between (a b : datetime) : Z := toordinal a - toordinal b.

(** [d + timedelta(days=n)]. *)
Definition add_days (d : datetime) (n : Z) : exc datetime :=
  let o := toordinal d + n in
  if (0 <? o) && (o <=? MAXORDINAL) then Ok (fromordinal o)
  else Raise OverflowError.

(** [width] decimal digits of [n], zero padded. *)
Fixpoint digits (width : nat) (n : Z) : str :=
  match width with
  | O => []
  | S w => digits w (n / 10) ++ [48 + n mod 10]
  end.

(** [d.strftime('%Y-%m-%d')], for the four-digit years. *)
Definition strftime_ymd (d : datetime) : str :=
  let '(y, m, dd) := ord2ymd (toordinal d) in
  digits 4 y ++ u "-" ++ digits 2 m ++ u "-" ++ digits 2 dd.

(** [str(d)]. *)
Definition to_str (d : datetime) : str :=
  strftime_ymd d ++ u " 00:00:00".

End Datetime.

(** ** [scrape_data.py]: [PriceHistoryScraper] *)

Module ScrapeData.

Definition price_keys : list str :=
  [u "price"; u "value"; u "y"; u "amount"].

Definition date_keys : list str :=
  [u "date"; u "time"; u "x"; u "timestamp"].

(** [validate_price_data]: the three [dict] tests, then the test on the
    first item of a list. *)
Definition validate_price_data (data : pyval) : exc bool :=
  if negb (truthy data) then Ok false else
  accepted <-
    (if isinstance_dict data then
       c1 <- andM (py_in (u "labels") data) (py_in (u "data") data) ;;
       if c1 then Ok true else
       c2 <- andM (py_in (u "dates") data) (py_in (u "prices") data) ;;
       if c2 then Ok true else
       andM (py_in (u "x") data) (py_in (u "y") data)
     else Ok false) ;;
  if accepted then Ok true else
  nonempty_list <-
    (if isinstance_list data
     then n <- py_len data ;; Ok (0 <? n)
     else Ok false) ;;
  if nonempty_list then
    first_item <- py_getitem_int data 0 ;;
    if isinstance_dict first_item then
      has_price <- anyM (fun key => py_in key first_item) price_keys ;;
      has_date <- anyM (fun key => py_in key first_item) date_keys ;;
      Ok (has_price && has_date)
    else Ok false
  else Ok false.


Definition formatted (labels data : list pyval) : pyval :=
  PDict [(u "labels", PList labels); (u "data", PList data)].

Section Format.

Variable unicode_lower : str -> str.

(** One turn of [for key, value in item.items()]. *)
Definition scan_step (st : pyval * pyval) (kv : str * pyval)
  : pyval * pyval :=
  let '(date_val, price_val) := st in
  let '(key, value) := kv in
  if str_mem (py_lower unicode_lower key) date_keys
  then (value, price_val)
  else if str_mem (py_lower unicode_lower key) price_keys
  then (date_val, value)
  else (date_val, price_val).

(** The body of [for item in data]: the state is the pair of lists
    [formatted_data['labels']], [formatted_data['data']]. *)
Definition format_item (st : list pyval * list pyval) (item : pyval)
  : exc (list pyval * list pyval) :=
  if isinstance_dict item then
    kvs <- py_items item ;;
    let '(date_val, price_val) := fold_left scan_step kvs (PNone, PNone) in
    if negb (is_none date_val) && negb (is_none price_val)
    then Ok (fst st ++ [date_val], snd st ++ [price_val])
    else Ok st
  else Ok st.

Fixpoint format_items (st : list pyval * list pyval) (items : list pyval)
  : exc (list pyval * list pyval) :=
  match items with
  | [] => Ok st
  | item :: rest => st' <- format_item st item ;; format_items st' rest
  end.

(** [format_price_data]. *)
Definition format_price_data (data : pyval) : exc pyval :=
  if isinstance_dict data then
    c1 <- andM (py_in (u "labels") data) (py_in (u "data") data) ;;
    if c1 then Ok data else
    c2 <- andM (py_in (u "dates") data) (py_in (u "prices") data) ;;
    if c2 then
      dates <- py_getitem_str data (u "dates") ;;
      prices <- py_getitem_str data (u "prices") ;;
      Ok (PDict [(u "labels", dates); (u "data", prices)])
    else Ok (formatted [] [])
  else if isinstance_list data then
    items <- py_iter data ;;
    st <- format_items ([], []) items ;;
    Ok (formatted (fst st) (snd st))
  else Ok (formatted [] []).

End Format.

(** The rows [save_to_csv] writes under the header:
    [zip(data['labels'], data['data'])]. *)
Definition csv_rows (data : pyval) : exc (list (pyval * pyval)) :=
  labels <- py_getitem_str data (u "labels") ;;
  values <- py_getitem_str data (u "data") ;;
  ls <- py_iter labels ;;
  vs <- py_iter values ;;
  Ok (combine ls vs).

(** [save_to_csv]; [sink_ok] tells whether opening and writing the output
    file succeed.  The guard runs outside the [try], the writing inside. *)
Definition save_to_csv (sink_ok : bool) (data : pyval) : exc bool :=
  rejected <-
    (if negb (truthy data) then Ok true else
     l <- py_in (u "labels") data ;;
     if negb l then Ok true else
     d <- py_in (u "data") data ;; Ok (negb d)) ;;
  if rejected then Ok false else
  catch (if sink_ok then _ <- csv_rows data ;; Ok true else Raise IOError)
        (Ok false).

(** [generate_sample_data].  The string hash is salted per process and
    the price is a floating-point product; both are taken as given:
    [py_hash] is [hash], and [float_price days r] is
    [int(base_price * seasonal_factor * trend_factor * random_factor)]
    for [days_since_start = days] and [hash(...) % 100 - 50 = r]. *)
Section Sample.

Variable py_hash : str -> Z.
Variable float_price : Z -> Z -> Z.

Definition start_date : Datetime.datetime := Datetime.mk 2022 11 1.
Definition end_date : Datetime.datetime := Datetime.mk 2025 8 2.

(** The [while current_date <= end_date] loop; [None] when the fuel runs
    out before the guard fails. *)
Fixpoint sample_loop (fuel : nat) (current_date : Datetime.datetime)
    (dates prices : list pyval) : option (exc (list pyval * list pyval)) :=
  match fuel with
  | O => None
  | S fuel' =>
      if Datetime.le current_date end_date then
        let dates' := dates ++ [PStr (Datetime.strftime_ymd current_date)] in
        let days_since_start :=
          Datetime.days_between current_date start_date in
        let price :=
          float_price days_since_start
            (py_hash (Datetime.to_str current_date) mod 100 - 50) in
        let prices' := prices ++ [PInt price] in
        match Datetime.add_days current_date 7 with
        | Ok next => sample_loop fuel' next dates' prices'
        | Raise e => Some (Raise e)
        end
      else Some (Ok (dates, prices))
  end.

Definition generate_sample_data (fuel : nat) : option (exc pyval) :=
  match sample_loop fuel start_date [] [] with
  | Some (Ok (dates, prices)) => Some (Ok (formatted dates prices))
  | Some (Raise e) => Some (Raise e)
  | None => None
  end.

End Sample.

(** The regular-expression engine and the JSON decoder are collaborators:
    [re_findall p flags s] is [re.findall(p, s, flags)] for a pattern with
    one group (the list of captured substrings, leftmost first), and
    [json_loads s] is [json.loads(s)], raising on text that does not
    decode. *)
Section PageSource.

Variable unicode_lower : str -> str.
Variable re_findall : string -> list re_flag -> str -> list str.
Variable json_loads : str -> exc pyval.

Definition patterns : list string :=
  [ "chartData\s*[:=]\s*(\{[^}]+\})";
    "priceData\s*[:=]\s*(\[[^\]]+\])";
    "historyData\s*[:=]\s*(\{[^}]+\})";
    "labels\s*:\s*\[([^\]]+)\]";
    "data\s*:\s*\[([^\]]+)\]" ]%string.

(** [for match in matches]: [Some r] when the loop returns [r]. *)
Fixpoint try_matches (matches : list str) : exc (option pyval) :=
  match matches with
  | [] => Ok None
  | m :: rest =>
      data <- json_loads m ;;
      valid <- validate_price_data data ;;
      if valid
      then r <- format_price_data unicode_lower data ;; Ok (Some r)
      else try_matches rest
  end.

(** [for pattern in patterns]: the [try] encloses the whole loop over
    the matches of one pattern, and its handler is [continue]. *)
Fixpoint scan_patterns (content : str) (ps : list string)
  : exc (option pyval) :=
  match ps with
  | [] => Ok None
  | pattern :: rest =>
      match re_findall pattern [IGNORECASE] content with
      | [] => scan_patterns content rest
      | matches =>
          r <- catch (try_matches matches) (Ok None) ;;
          match r with
          | Some v => Ok (Some v)
          | None => scan_patterns content rest
          end
      end
  end.

(** [for script in scripts]; each script is its [.string], [None] when
    the tag has no single text child. *)
Fixpoint scan_scripts (scripts : list (option str)) : exc (option pyval) :=
  match scripts with
  | [] => Ok None
  | Some (c :: content) :: rest =>
      r <- scan_patterns (c :: content) patterns ;;
      match r with
      | Some v => Ok (Some v)
      | None => scan_scripts rest
      end
  | _ :: rest => scan_scripts rest
  end.

(** [extract_from_page_source].  [page] is what fetching and parsing the
    URL gives: the script tags of the document, or the exception raised
    by the request.  Python's [None] is [PNone]. *)
Definition extract_from_page_source (page : exc (list (option str)))
  : exc pyval :=
  catch
    (scripts <- page ;;
     r <- scan_scripts scripts ;;
     match r with
     | Some v => Ok v
     | None => Ok PNone
     end)
    (Ok PNone).

(** The body of the [try] in [scrape_price_history] for one method:
    [Some data] when it returns [data]. *)
Definition try_method (sink_ok : bool) (method_func : exc pyval)
  : exc (option pyval) :=
  data <- method_func ;;
  if truthy data then
    valid <- validate_price_data data ;;
    if valid then
      saved <- save_to_csv sink_ok data ;;
      if saved then Ok (Some data) else Ok None
    else Ok None
  else Ok None.

Fixpoint run_methods (methods : list (bool * exc pyval)) : pyval :=
  match methods with
  | [] => PNone
  | (sink_ok, method_func) :: rest =>
      match catch (try_method sink_ok method_func) (Ok None) with
      | Ok (Some data) => data
      | _ => run_methods rest
      end
  end.

Variable py_hash : str -> Z.
Variable float_price : Z -> Z -> Z.

(** [scrape_price_history].  [selenium] is the value
    [extract_chart_data_selenium] returns (it catches its own exceptions),
    [sink_ok k] tells whether the [k]-th method's call of [save_to_csv]
    can write its file. *)
Definition scrape_price_history (fuel : nat) (selenium : pyval)
    (page : exc (list (option str))) (sink_ok : nat -> bool)
  : option pyval :=
  match generate_sample_data py_hash float_price fuel with
  | None => None
  | Some sample =>
      Some (run_methods
              [ (sink_ok 0%nat, Ok selenium);
                (sink_ok 1%nat, extract_from_page_source page);
                (sink_ok 2%nat, sample) ])
  end.

End PageSource.

(** *** The network log and the browser probe *)

(** [v.get(k, default)]. *)
Definition py_get_default (v : pyval) (k : str) (default : pyval)
  : exc pyval :=
  match v with
  | PDict d =>
      Ok (match lookup k d with Some x => x | None => default end)
  | _ => Raise AttributeError
  end.

(** [json.loads(v)] for a value that should be text. *)
Definition loads_value (json_loads : str -> exc pyval) (v : pyval)
  : exc pyval :=
  match v with
  | PStr s => json_loads s
  | _ => Raise TypeError
  end.

Definition url_keywords : list str :=
  [u "price"; u "history"; u "chart"; u "data"; u "api"].

Section Network.

Variable unicode_lower : str -> str.
Variable json_loads : str -> exc pyval.

(** [session_get url] is [self.session.get(url)]: the status code and
    what [response.json()] gives, or the exception of the request. *)
Variable session_get : str -> exc (Z * exc pyval).

(** [any(keyword in url.lower() for keyword in [...])]. *)
Definition url_has_keyword (url : pyval) : exc bool :=
  match url with
  | PStr s =>
      Ok (existsb (fun keyword => str_contains keyword
                                    (py_lower unicode_lower s))
                  url_keywords)
  | _ => Raise AttributeError
  end.

(** The body of the inner [try] for one URL: [Some r] when it returns
    [r]. *)
Definition fetch_candidate (url : pyval) : exc (option pyval) :=
  match url with
  | PStr s =>
      response <- session_get s ;;
      if fst response =? 200 then
        data <- snd response ;;
        valid <- validate_price_data data ;;
        if valid
        then r <- format_price_data unicode_lower data ;; Ok (Some r)
        else Ok None
      else Ok None
  | _ => Raise TypeError
  end.

(** [for log in logs]: only the request is inside the inner [try]; the
    decoding of the entry is not. *)
Fixpoint scan_logs (logs : list pyval) : exc (option pyval) :=
  match logs with
  | [] => Ok None
  | log :: rest =>
      raw <- py_getitem_str log (u "message") ;;
      message <- loads_value json_loads raw ;;
      inner <- py_getitem_str message (u "message") ;;
      method <- py_getitem_str inner (u "method") ;;
      if is_pstr (u "Network.responseReceived") method then
        params <- py_getitem_str inner (u "params") ;;
        response <- py_getitem_str params (u "response") ;;
        url <- py_getitem_str response (u "url") ;;
        wanted <- url_has_keyword url ;;
        if wanted then
          r <- catch (fetch_candidate url) (Ok None) ;;
          match r with
          | Some v => Ok (Some v)
          | None => scan_logs rest
          end
        else scan_logs rest
      else scan_logs rest
  end.

(** [extract_from_network_logs]; [logs] is
    [self.driver.get_log('performance')]. *)
Definition extract_from_network_logs (logs : exc (list pyval))
  : exc pyval :=
  catch
    (entries <- logs ;;
     r <- scan_logs entries ;;
     match r with
     | Some v => Ok v
     | None => Ok PNone
     end)
    (Ok PNone).

(** What the browser gives [extract_chart_data_selenium]: [canvas_load]
    is [driver.get] and the wait for a canvas, [probe] the value of the
    script, [performance_log] the driver's log. *)
Record chart_browser : Type := {
  canvas_load : exc unit;
  probe : exc pyval;
  performance_log : exc (list pyval)
}.

(** [extract_chart_data_selenium].  The message logged on success
    evaluates [len(chart_data.get('labels', []))] inside the [try]. *)
Definition extract_chart_data_selenium (b : chart_browser) : exc pyval :=
  catch
    (_ <- canvas_load b ;;
     chart_data <- probe b ;;
     if truthy chart_data then
       labels <- py_get_default chart_data (u "labels") (PList []) ;;
       _ <- py_len labels ;;
       Ok chart_data
     else extract_from_network_logs (performance_log b))
    (Ok PNone).

End Network.

End ScrapeData.

(** ** [price_before.py]: [EnhancedPriceHistoryScraper] *)

Module PriceBefore.

(** *** Text helpers of the standard library *)

(** [s.split()]: the maximal runs of characters that are not white space.
    [cur] is the run being read. *)
Fixpoint split_from (cur : str) (s : str) : list str :=
  match s with
  | [] => match cur with [] => [] | _ => [cur] end
  | c :: s' =>
      if py_isspace c
      then match cur with
           | [] => split_from [] s'
           | _ => cur :: split_from [] s'
           end
      else split_from (cur ++ [c]) s'
  end.

Definition py_split (s : str) : list str := split_from [] s.

Fixpoint lstrip (s : str) : str :=
  match s with
  | [] => []
  | c :: s' => if py_isspace c then lstrip s' else s
  end.

(** [s.strip()]. *)
Definition py_strip (s : str) : str := rev (lstrip (rev (lstrip s))).

Section Text.

(** [str.isalnum] of one code point above Latin-1, from the Unicode tables
    of the runtime. *)
Variable unicode_isalnum : Z -> bool.

Definition py_isalnum (c : Z) : bool :=
  if c <? 256 then latin1_isalnum c else unicode_isalnum c.

(** The pattern class [\w]. *)
Definition is_word (c : Z) : bool := py_isalnum c || (c =? 95).

(** [re.sub(r'[^\w\s-]', '', s)]. *)
Definition sub_non_word (s : str) : str :=
  filter (fun c => is_word c || py_isspace c || (c =? 45)) s.

(** *** Title and brand *)

(** What the HTML parser finds in a page: [select_one_text sel] is
    [get_text(strip=True)] of the first element matching the selector, if
    there is one; [og_title] is the [content] attribute (or [''] when it
    is absent) of the [og:title] meta tag, if there is one. *)
Record soup : Type := {
  select_one_text : str -> option str;
  og_title : option str
}.

Record product_info : Type := {
  info_title : str;
  info_brand : str
}.

(** The selectors [h1], [.product-title], [[class*="title"]] and
    [[class*="product-name"]]; 34 is the double quote. *)
Definition title_selectors : list str :=
  [ u "h1"; u ".product-title";
    u "[class*=" ++ [34] ++ u "title" ++ [34] ++ u "]";
    u "[class*=" ++ [34] ++ u "product-name" ++ [34] ++ u "]" ].

(** [for selector in title_selectors]: the first element found ends the
    loop, whatever its text. *)
Fixpoint first_selected (page : soup) (selectors : list str)
  : option str :=
  match selectors with
  | [] => None
  | selector :: rest =>
      match select_one_text page selector with
      | Some text => Some text
      | None => first_selected page rest
      end
  end.

(** Truth of a value that is [None] or a string. *)
Definition some_text (t : option str) : bool :=
  match t with
  | Some (_ :: _) => true
  | _ => false
  end.

(** [t or default]. *)
Definition or_default (t : option str) (default : str) : str :=
  match t with
  | Some (c :: s) => c :: s
  | _ => default
  end.

(** The brand of a title: the first word, cleaned. *)
Definition brand_of_title (title : str) : option str :=
  match py_split title with
  | [] => None
  | w :: _ => Some (py_strip (sub_non_word w))
  end.

(** [extract_product_info]. *)
Definition extract_product_info (page : soup) : product_info :=
  let title := first_selected page title_selectors in
  let title :=
    if negb (some_text title) then
      match og_title page with
      | Some content => Some (py_strip content)
      | None => title
      end
    else title in
  let brand :=
    match title with
    | Some (c :: s) => brand_of_title (c :: s)
    | _ => None
    end in
  {| info_title := or_default title (u "Unknown Product");
     info_brand := or_default brand (u "Unknown Brand") |}.

End Text.

(** *** Embedded data *)

Record product_data : Type := {
  title : str;
  brand : str;
  price_data : list pyval
}.

(** [{'date': d, 'price': p}]. *)
Definition point (d p : pyval) : pyval :=
  PDict [(u "date", d); (u "price", p)].

Definition start_date : Datetime.datetime := Datetime.mk 2022 11 1.
Definition end_date : Datetime.datetime := Datetime.mk 2025 8 2.

Section Html.

Variable re_findall : string -> list re_flag -> str -> list str.
Variable json_loads : str -> exc pyval.

Definition script_pattern : string := "<script[^>]*>(.*?)</script>".

Definition html_patterns : list string :=
  [ "labels\s*:\s*\[(.*?)\]";
    "data\s*:\s*\[(.*?)\]";
    "chartData\s*[:=]\s*(\{.*?\})";
    "priceData\s*[:=]\s*(\[.*?\])" ]%string.

(** The list [price_data] is filled in place, so what was appended before
    an exception stays: every loop returns the list together with its
    outcome. *)

(** [for i, price in enumerate(data)]. *)
Fixpoint append_points (i : Z) (items : list pyval) (acc : list pyval)
  : list pyval * exc unit :=
  match items with
  | [] => (acc, Ok tt)
  | price :: rest =>
      match Datetime.add_days start_date (i * 7) with
      | Ok date =>
          append_points (i + 1) rest
            (acc ++ [point (PStr (Datetime.strftime_ymd date)) price])
      | Raise e => (acc, Raise e)
      end
  end.

(** [for match in matches]: [Ok true] when the loop returns. *)
Fixpoint html_matches (matches : list str) (acc : list pyval)
  : list pyval * exc bool :=
  match matches with
  | [] => (acc, Ok false)
  | m :: rest =>
      if str_contains (u "[") m && str_contains (u "]") m then
        match json_loads (u "[" ++ m ++ u "]") with
        | Raise e => (acc, Raise e)
        | Ok data =>
            match py_len data with
            | Raise e => (acc, Raise e)
            | Ok n =>
                if 10 <? n then
                  match py_iter data with
                  | Raise e => (acc, Raise e)
                  | Ok items =>
                      match append_points 0 items acc with
                      | (acc', Ok _) => (acc', Ok true)
                      | (acc', Raise e) => (acc', Raise e)
                      end
                  end
                else html_matches rest acc
            end
        end
      else html_matches rest acc
  end.

(** [for pattern in patterns]: [true] when the function returns. *)
Fixpoint html_patterns_loop (script : str) (ps : list string)
    (acc : list pyval) : list pyval * bool :=
  match ps with
  | [] => (acc, false)
  | pattern :: rest =>
      match re_findall pattern [DOTALL] script with
      | [] => html_patterns_loop script rest acc
      | matches =>
          match html_matches matches acc with
          | (acc', Ok true) => (acc', true)
          | (acc', _) => html_patterns_loop script rest acc'
          end
      end
  end.

Fixpoint html_scripts_loop (scripts : list str) (acc : list pyval)
  : list pyval :=
  match scripts with
  | [] => acc
  | script :: rest =>
      match html_patterns_loop script html_patterns acc with
      | (acc', true) => acc'
      | (acc', false) => html_scripts_loop rest acc'
      end
  end.

(** [extract_price_from_html]. *)
Definition extract_price_from_html (html_content : str) : list pyval :=
  html_scripts_loop
    (re_findall script_pattern [DOTALL; IGNORECASE] html_content) [].

End Html.

(** *** Synthetic data *)

(** The draws of the random generator in one call of
    [generate_sample_price_data]: [randint_1_7 k] is the value of
    [random.randint(1, 7)] in the [k]-th turn of the loop, and
    [priced k days] the value of
    [int(base_price * seasonal_factor * trend_factor * random_factor)]
    there, a floating-point product of random factors, for
    [days_since_start = days]. *)
Record rng : Type := {
  randint_1_7 : nat -> Z;
  priced : nat -> Z -> Z
}.

(** The [while current_date <= end_date] loop; [None] when the fuel runs
    out before the guard fails. *)
Fixpoint sample_price_loop (r : rng) (fuel k : nat)
    (current_date : Datetime.datetime) (acc : list pyval)
  : option (exc (list pyval)) :=
  match fuel with
  | O => None
  | S fuel' =>
      if Datetime.le current_date end_date then
        let days_since_start :=
          Datetime.days_between current_date start_date in
        let price := priced r k days_since_start in
        let acc' :=
          acc ++ [point (PStr (Datetime.strftime_ymd current_date))
                        (PInt (Z.max 100 price))] in
        match Datetime.add_days current_date (randint_1_7 r k) with
        | Ok next => sample_price_loop r fuel' (S k) next acc'
        | Raise e => Some (Raise e)
        end
      else Some (Ok acc)
  end.

Definition generate_sample_price_data (r : rng) (fuel : nat)
  : option (exc (list pyval)) :=
  sample_price_loop r fuel 0 start_date [].

(** *** The cascade *)

(** What the browser gives for one URL: [page_load] is [driver.get] and
    the wait for the body, [h1_text] the text of the [h1] element,
    [script_result] the value of the probe script. *)
Record browser : Type := {
  page_load : exc unit;
  h1_text : exc str;
  script_result : exc pyval
}.

(** What one URL meets: [http_get] is the status code and text of
    [session.get(url, timeout=10)], [parse_html] the HTML parser,
    [driver] the pooled browser if there is one, [random] the draws of
    the random generator. *)
Record world : Type := {
  http_get : exc (Z * str);
  parse_html : str -> exc soup;
  driver : option browser;
  random : rng
}.

Definition set_info (i : product_info) (pd : product_data) : product_data :=
  {| title := info_title i; brand := info_brand i;
     price_data := price_data pd |}.

Definition set_title (t : str) (pd : product_data) : product_data :=
  {| title := t; brand := brand pd; price_data := price_data pd |}.

Definition set_brand (b : str) (pd : product_data) : product_data :=
  {| title := title pd; brand := b; price_data := price_data pd |}.

Definition set_price_data (l : list pyval) (pd : product_data)
  : product_data :=
  {| title := title pd; brand := brand pd; price_data := l |}.

(** [v.get(k)]. *)
Definition py_get (v : pyval) (k : str) : exc pyval :=
  match v with
  | PDict d =>
      Ok (match lookup k d with Some x => x | None => PNone end)
  | _ => Raise AttributeError
  end.

(** [for i in range(len(labels))], the indices being [idx]. *)
Fixpoint pair_loop (labels prices : pyval) (idx : list Z)
    (acc : list pyval) : exc (list pyval) :=
  match idx with
  | [] => Ok acc
  | i :: rest =>
      m <- py_len prices ;;
      if i <? m then
        l <- py_getitem_int labels i ;;
        p <- py_getitem_int prices i ;;
        pair_loop labels prices rest (acc ++ [point l p])
      else pair_loop labels prices rest acc
  end.

(** [range(n)]. *)
Definition py_range (n : Z) : list Z :=
  map Z.of_nat (seq 0 (Z.to_nat n)).

(** The points built from the probe script's result: [Some l] when
    [price_data] is assigned [l]. *)
Definition chart_points (chart_data : pyval) : exc (option (list pyval)) :=
  usable <-
    (if truthy chart_data then
       l <- py_get chart_data (u "labels") ;;
       if truthy l then
         d <- py_get chart_data (u "data") ;; Ok (truthy d)
       else Ok false
     else Ok false) ;;
  if usable then
    labels <- py_getitem_str chart_data (u "labels") ;;
    prices <- py_getitem_str chart_data (u "data") ;;
    n <- py_len labels ;;
    l <- pair_loop labels prices (py_range n) [] ;;
    Ok (Some l)
  else Ok None.

Section Cascade.

Variable unicode_isalnum : Z -> bool.
Variable re_findall : string -> list re_flag -> str -> list str.
Variable json_loads : str -> exc pyval.

(** Method 1, the plain request: the record so far, and whether the
    function returns it. *)
Definition method_requests (w : world) (pd : product_data)
  : product_data * bool :=
  match http_get w with
  | Ok (status_code, text) =>
      if status_code =? 200 then
        match parse_html w text with
        | Ok page =>
            let pd1 := set_info (extract_product_info unicode_isalnum page) pd in
            match extract_price_from_html re_findall json_loads text with
            | [] => (pd1, false)
            | l => (set_price_data l pd1, true)
            end
        | Raise _ => (pd, false)
        end
      else (pd, false)
  | Raise _ => (pd, false)
  end.

(** The inner [try] of method 2: title and brand from the [h1]. *)
Definition selenium_title (b : browser) (pd : product_data)
  : product_data :=
  match h1_text b with
  | Ok text =>
      let pd1 := set_title (py_strip text) pd in
      match py_split (title pd1) with
      | [] => pd1
      | w :: _ => set_brand (py_strip (sub_non_word unicode_isalnum w)) pd1
      end
  | Raise _ => pd
  end.

(** Method 2, the browser. *)
Definition method_selenium (w : world) (pd : product_data)
  : product_data :=
  match driver w with
  | None => pd
  | Some b =>
      match page_load b with
      | Raise _ => pd
      | Ok _ =>
          let pd1 := selenium_title b pd in
          match (chart_data <- script_result b ;; chart_points chart_data) with
          | Ok (Some l) => set_price_data l pd1
          | _ => pd1
          end
      end
  end.

Definition initial_product_data : product_data :=
  {| title := u "Unknown Product"; brand := u "Unknown Brand";
     price_data := [] |}.

(** [extract_chart_data_advanced]. *)
Definition extract_chart_data_advanced (fuel : nat) (w : world)
  : option (exc product_data) :=
  match method_requests w initial_product_data with
  | (pd, true) => Some (Ok pd)
  | (pd, false) =>
      let pd2 := method_selenium w pd in
      match price_data pd2 with
      | [] =>
          match generate_sample_price_data (random w) fuel with
          | Some (Ok l) => Some (Ok (set_price_data l pd2))
          | Some (Raise e) => Some (Raise e)
          | None => None
          end
      | _ => Some (Ok pd2)
      end
  end.

End Cascade.

(** *** The URL list *)

Definition base_url : str := u "https://www.pricebefore.com".

(** [for line in f]: a line that cannot be read ends the loop, the
    handler keeping the URLs read so far. *)
Fixpoint read_lines (lines : list (exc str)) (urls : list str)
  : list str :=
  match lines with
  | [] => urls
  | Raise _ :: _ => urls
  | Ok line :: rest =>
      let line := py_strip line in
      match line with
      | [] => read_lines rest urls
      | _ :: _ =>
          if negb (str_prefix (u "#") line) then
            if str_prefix (u "/") line
            then read_lines rest (urls ++ [base_url ++ line])
            else read_lines rest (urls ++ [line])
          else read_lines rest urls
      end
  end.

(** [read_mobile_urls]; [file] is the lines of the file, or the
    exception of opening it. *)
Definition read_mobile_urls (file : exc (list (exc str))) : list str :=
  match file with
  | Ok lines => read_lines lines []
  | Raise _ => []
  end.

(** *** The output file *)

(** The row of one price entry of a product. *)
Definition csv_row (t b : str) (price_entry : pyval) : exc (list pyval) :=
  d <- py_getitem_str price_entry (u "date") ;;
  p <- py_getitem_str price_entry (u "price") ;;
  Ok [PStr t; PStr b; d; p].

(** The two loops of [save_to_csv]: the rows written so far stay in the
    file when an entry raises. *)
Fixpoint write_entries (t b : str) (entries : list pyval)
    (written : list (list pyval)) : list (list pyval) * exc unit :=
  match entries with
  | [] => (written, Ok tt)
  | price_entry :: rest =>
      match csv_row t b price_entry with
      | Ok row => write_entries t b rest (written ++ [row])
      | Raise e => (written, Raise e)
      end
  end.

Fixpoint write_products (all_data : list product_data)
    (written : list (list pyval)) : list (list pyval) * exc unit :=
  match all_data with
  | [] => (written, Ok tt)
  | pd :: rest =>
      match write_entries (title pd) (brand pd) (price_data pd) written with
      | (written', Ok _) => write_products rest written'
      | (written', Raise e) => (written', Raise e)
      end
  end.

Definition header : list pyval :=
  [PStr (u "title"); PStr (u "brand"); PStr (u "date"); PStr (u "price")].

(** [save_to_csv]: the rows of the file (none when it cannot be opened)
    and the value returned. *)
Definition save_to_csv (sink_ok : bool) (all_data : list product_data)
  : list (list pyval) * bool :=
  if sink_ok then
    match write_products all_data [header] with
    | (written, Ok _) => (written, true)
    | (written, Raise _) => (written, false)
    end
  else ([], false).

(** *** The run over all URLs *)

Record tally : Type := {
  all_data : list product_data;
  successful : Z;
  failed : Z
}.

(** One turn of [for future in as_completed(...)]; [result] is what
    [process_single_url] returned, [None] for Python's [None]. *)
Definition count_result (t : tally) (result : option product_data)
  : tally :=
  match result with
  | Some pd =>
      match price_data pd with
      | _ :: _ =>
          {| all_data := all_data t ++ [pd];
             successful := successful t + 1;
             failed := failed t |}
      | [] =>
          {| all_data := all_data t;
             successful := successful t;
             failed := failed t + 1 |}
      end
  | None =>
      {| all_data := all_data t;
         successful := successful t;
         failed := failed t + 1 |}
  end.

Definition collect (results : list (option product_data)) : tally :=
  fold_left count_result results
    {| all_data := []; successful := 0; failed := 0 |}.

(** [scrape_multiple_products], on the results in the order the workers
    complete. *)
Definition scrape_multiple_products (sink_ok : bool)
    (results : list (option product_data)) : option (list product_data) :=
  match all_data (collect results) with
  | [] => None
  | l => if snd (save_to_csv sink_ok l) then Some l else None
  end.

Section Run.

Variable unicode_isalnum : Z -> bool.
Variable re_findall : string -> list re_flag -> str -> list str.
Variable json_loads : str -> exc pyval.

(** [process_single_url]: an exception of the extraction becomes
    [None]; the outer [None] is the fuel running out. *)
Definition process_single_url (fuel : nat) (w : world)
  : option (option product_data) :=
  match extract_chart_data_advanced unicode_isalnum re_findall json_loads
          fuel w with
  | Some (Ok pd) => Some (Some pd)
  | Some (Raise _) => Some None
  | None => None
  end.

Fixpoint process_all (fuel : nat) (ws : list world)
  : option (list (option product_data)) :=
  match ws with
  | [] => Some []
  | w :: rest =>
      match process_single_url fuel w, process_all fuel rest with
      | Some r, Some rs => Some (r :: rs)
      | _, _ => None
      end
  end.

End Run.

End PriceBefore.

(** * Specification-side definitions *)

Import ScrapeData.

(** The mapping [data] has both keys. *)
Definition mapping_with (k1 k2 : str) (data : pyval) : Prop :=
  exists d, data = PDict d /\ In k1 (map fst d) /\ In k2 (map fst d).

(** The mapping [data] has both keys and the value under [k2] is an
    array. *)
Definition mapping_with_array (k1 k2 : str) (data : pyval) : Prop :=
  exists d l,
    data = PDict d /\ In k1 (map fst d) /\ lookup k2 d = Some (PList l).

(** A non-empty sequence whose first element is a mapping with a price
    key and a date key. *)
Definition record_sequence (data : pyval) : Prop :=
  exists item rest,
    data = PList (PDict item :: rest) /\
    (exists k, In k price_keys /\ In k (map fst item)) /\
    (exists k, In k date_keys /\ In k (map fst item)).

(** Rules 1 to 4 of the validator, rule 1 asking for an array under
    ['data'] as the rule is worded. *)
Definition rules_as_worded (data : pyval) : Prop :=
  mapping_with_array (u "labels") (u "data") data \/
  mapping_with (u "dates") (u "prices") data \/
  mapping_with (u "x") (u "y") data \/
  record_sequence data.

(** Rules 1 to 4 with no condition on the values. *)
Definition rules_on_keys (data : pyval) : Prop :=
  mapping_with (u "labels") (u "data") data \/
  mapping_with (u "dates") (u "prices") data \/
  mapping_with (u "x") (u "y") data \/
  record_sequence data.

Definition pair_present (k1 k2 : str) (d : list (str * pyval)) : bool :=
  has_key k1 d && has_key k2 d.

(** The shapes the validator accepts, as a decision. *)
Definition shape_ok (data : pyval) : bool :=
  match data with
  | PDict d =>
      pair_present (u "labels") (u "data") d ||
      pair_present (u "dates") (u "prices") d ||
      pair_present (u "x") (u "y") d
  | PList (PDict item :: _) =>
      existsb (fun k => has_key k item) price_keys &&
      existsb (fun k => has_key k item) date_keys
  | _ => false
  end.

(** Structurally malformed candidates: scalars and [None], empty
    collections, sequences whose first element is not a mapping, mappings
    and first records that lack a required key. *)
Definition malformed (data : pyval) : bool :=
  match data with
  | PDict d =>
      negb (pair_present (u "labels") (u "data") d) &&
      negb (pair_present (u "dates") (u "prices") d) &&
      negb (pair_present (u "x") (u "y") d)
  | PList (PDict item :: _) =>
      negb (existsb (fun k => has_key k item) price_keys) ||
      negb (existsb (fun k => has_key k item) date_keys)
  | _ => true
  end.

(** The value under the last key of [item] whose lower-cased name is in
    [ks], and the value under the first such key. *)
Fixpoint last_match (lower : str -> str) (ks : list str)
    (item : list (str * pyval)) : option pyval :=
  match item with
  | [] => None
  | (k, v) :: rest =>
      match last_match lower ks rest with
      | Some x => Some x
      | None => if str_mem (py_lower lower k) ks then Some v else None
      end
  end.

Fixpoint first_match (lower : str -> str) (ks : list str)
    (item : list (str * pyval)) : option pyval :=
  match item with
  | [] => None
  | (k, v) :: rest =>
      if str_mem (py_lower lower k) ks then Some v
      else first_match lower ks rest
  end.

(** The point a record gives, by the rule [pick] for choosing among
    matching keys: none when the record is not a mapping, when a date or
    a price key is missing, or when the chosen value is [None]. *)
Definition record_point
    (pick : list str -> list (str * pyval) -> option pyval)
    (item : pyval) : list (pyval * pyval) :=
  match item with
  | PDict kvs =>
      match pick date_keys kvs, pick price_keys kvs with
      | Some d, Some p =>
          if negb (is_none d) && negb (is_none p) then [(d, p)] else []
      | _, _ => []
      end
  | _ => []
  end.

(** The series of a sequence of records, by the rule [pick]. *)
Definition series_of_records
    (pick : list str -> list (str * pyval) -> option pyval)
    (items : list pyval) : pyval :=
  let pts := flat_map (record_point pick) items in
  formatted (map fst pts) (map snd pts).

Definition or_else (o : option pyval) (v : pyval) : pyval :=
  match o with Some x => x | None => v end.

(** [[{"date": "d1", "time": "t1", "price": 5}]]. *)
Definition two_date_keys : list pyval :=
  [ PDict [ (u "date", PStr (u "d1")); (u "time", PStr (u "t1"));
            (u "price", PInt 5) ] ].

(** The point [{'date': l, 'price': p}] of a pair. *)
Definition point_of (lp : pyval * pyval) : pyval :=
  PriceBefore.point (fst lp) (snd lp).

(** [{"labels": ["a","b","c","d","e"], "data": [1, 2, 3]}]. *)
Definition five_labels_three_values : list (str * pyval) :=
  [ (u "labels",
     PList [PStr (u "a"); PStr (u "b"); PStr (u "c"); PStr (u "d");
            PStr (u "e")]);
    (u "data", PList [PInt 1; PInt 2; PInt 3]) ].

(** The number of weekly boundaries in the inclusive range from [a] to
    [b]: the days [a], [a + 7], [a + 14], ... that are not after [b]. *)
Definition weekly_boundaries (a b : Datetime.datetime) : nat :=
  Z.to_nat (Datetime.days_between b a / 7 + 1).

(** The day [7 * i] days after [a]. *)
Definition weeks_after (a : Datetime.datetime) (i : nat)
  : Datetime.datetime :=
  Datetime.fromordinal (Datetime.toordinal a + 7 * Z.of_nat i).

(** The price [generate_sample_data] appends for the day [d]. *)
Definition sample_price (py_hash : str -> Z) (float_price : Z -> Z -> Z)
    (d : Datetime.datetime) : pyval :=
  PInt (float_price (Datetime.days_between d start_date)
          (py_hash (Datetime.to_str d) mod 100 - 50)).

(** The series [generate_sample_data] builds. *)
Definition weekly_series (py_hash : str -> Z) (float_price : Z -> Z -> Z)
  : pyval :=
  formatted
    (map (fun i => PStr (Datetime.strftime_ymd (weeks_after start_date i)))
         (seq 0 144))
    (map (fun i => sample_price py_hash float_price
                     (weeks_after start_date i)) (seq 0 144)).

(** A method of [scrape_price_history] declines: its turn of the loop
    ends without returning. *)
Definition method_declines (sink_ok : bool) (method_func : exc pyval)
  : Prop :=
  catch (try_method sink_ok method_func) (Ok None) = Ok None.

(** The real strategies of [extract_chart_data_advanced] decline: the
    request does not return, and the browser leaves the series empty. *)
Definition strategies_decline (unicode_isalnum : Z -> bool)
    (re_findall : string -> list re_flag -> str -> list str)
    (json_loads : str -> exc pyval) (w : PriceBefore.world) : Prop :=
  snd (PriceBefore.method_requests unicode_isalnum re_findall json_loads w
         PriceBefore.initial_product_data) = false /\
  PriceBefore.price_data
    (PriceBefore.method_selenium unicode_isalnum w
       (fst (PriceBefore.method_requests unicode_isalnum re_findall
               json_loads w PriceBefore.initial_product_data))) = [].

(** Draws that respect [random.randint(1, 7)]. *)
Definition randint_in_range (r : PriceBefore.rng) : Prop :=
  forall k, 1 <= PriceBefore.randint_1_7 r k <= 7.

(** A URL that answers nothing: the request fails and no browser is
    pooled; every step of the synthetic generator is a week. *)
Definition dead_world : PriceBefore.world :=
  {| PriceBefore.http_get := Raise IOError;
     PriceBefore.parse_html := fun _ => Raise IOError;
     PriceBefore.driver := None;
     PriceBefore.random :=
       {| PriceBefore.randint_1_7 := fun _ => 7;
          PriceBefore.priced := fun _ days => 2999 + days |} |}.

(** The normalised form of a candidate ([None] if normalising raised). *)
Definition normalise (lower : str -> str) (data : pyval) : pyval :=
  match format_price_data lower data with
  | Ok v => v
  | Raise _ => PNone
  end.

(** A matched substring is accepted when it decodes and the decoded
    value passes the validator. *)
Definition accepted (json_loads : str -> exc pyval) (m : str)
  : option pyval :=
  match json_loads m with
  | Ok data => if shape_ok data then Some data else None
  | Raise _ => None
  end.

Fixpoint first_accepted (json_loads : str -> exc pyval) (ms : list str)
  : option pyval :=
  match ms with
  | [] => None
  | m :: rest =>
      match accepted json_loads m with
      | Some data => Some data
      | None => first_accepted json_loads rest
      end
  end.

(** The matches of one pattern up to the first that does not decode. *)
Fixpoint decodable_prefix (json_loads : str -> exc pyval) (ms : list str)
  : list str :=
  match ms with
  | [] => []
  | m :: rest =>
      match json_loads m with
      | Ok _ => m :: decodable_prefix json_loads rest
      | Raise _ => []
      end
  end.

(** The matches of a document in scan order: scripts, then patterns,
    then matches; [keep] is applied to the matches of each pattern. *)
Definition matches_in_order
    (re_findall : string -> list re_flag -> str -> list str)
    (keep : list str -> list str) (scripts : list (option str))
  : list str :=
  flat_map
    (fun script =>
       match script with
       | Some (c :: content) =>
           flat_map
             (fun pattern =>
                keep (re_findall pattern [IGNORECASE] (c :: content)))
             patterns
       | _ => []
       end)
    scripts.

(** The result of scanning the candidate substrings [ms] for the first
    accepted one. *)
Definition first_normalised (lower : str -> str)
    (json_loads : str -> exc pyval) (ms : list str) : pyval :=
  match first_accepted json_loads ms with
  | Some data => normalise lower data
  | None => PNone
  end.

(** A script with two [chartData] assignments, the first with an
    unquoted key: [chartData = {labels: [1]}; chartData = {"labels":
    ["a"], "data": [1]};].  [toy_findall] and [toy_loads] give what the
    regular-expression engine and the JSON decoder give on it. *)
Definition quoted (s : string) : str := [34] ++ u s ++ [34].

Definition unquoted_match : str := u "{labels: [1]}".

Definition quoted_match : str :=
  u "{" ++ quoted "labels" ++ u ": [" ++ quoted "a" ++ u "], " ++
  quoted "data" ++ u ": [1]}".

Definition two_assignments : str :=
  u "chartData = " ++ unquoted_match ++ u "; chartData = " ++
  quoted_match ++ u ";".

Definition toy_findall (pattern : string) (flags : list re_flag)
    (content : str) : list str :=
  if String.eqb pattern "chartData\s*[:=]\s*(\{[^}]+\})"
  then [unquoted_match; quoted_match]
  else if String.eqb pattern "labels\s*:\s*\[([^\]]+)\]"
  then [u "1"]
  else [].

Definition toy_loads (s : str) : exc pyval :=
  if str_eqb s quoted_match
  then Ok (PDict [ (u "labels", PList [PStr (u "a")]);
                   (u "data", PList [PInt 1]) ])
  else if str_eqb s (u "1") then Ok (PInt 1)
  else Raise JSONDecodeError.

(** The first white-space-delimited token of a text. *)
Fixpoint take_token (s : str) : str :=
  match s with
  | [] => []
  | c :: s' => if py_isspace c then [] else c :: take_token s'
  end.

Definition first_token (s : str) : str :=
  take_token (PriceBefore.lstrip s).

(** A token with every character removed that is neither a word
    character nor a hyphen. *)
Definition keep_word_hyphen (unicode_isalnum : Z -> bool) (w : str) : str :=
  filter (fun c => PriceBefore.is_word unicode_isalnum c || (c =? 45)) w.

(** The title the cascade of [extract_product_info] settles on: the
    first selector hit, or the stripped open-graph title when that is
    missing or empty. *)
Definition title_found (page : PriceBefore.soup) : option str :=
  let t := PriceBefore.first_selected page PriceBefore.title_selectors in
  if PriceBefore.some_text t then t
  else match PriceBefore.og_title page with
       | Some content => Some (PriceBefore.py_strip content)
       | None => t
       end.

(** The brand as the specification words it: the first token of the
    title that has an alphanumeric character, with everything that is not
    alphanumeric stripped; the placeholder when there is none. *)
Fixpoint first_nonempty (ws : list str) : option str :=
  match ws with
  | [] => None
  | [] :: rest => first_nonempty rest
  | w :: _ => Some w
  end.

Definition brand_as_worded (unicode_isalnum : Z -> bool) (title : str)
  : str :=
  PriceBefore.or_default
    (first_nonempty
       (map (filter (PriceBefore.py_isalnum unicode_isalnum))
            (PriceBefore.py_split title)))
    (u "Unknown Brand").

(** A page whose only title source is an [h1] with text [t], and a page
    with no title at all. *)
Definition h1_page (t : str) : PriceBefore.soup :=
  {| PriceBefore.select_one_text :=
       fun selector => if str_eqb selector (u "h1") then Some t else None;
     PriceBefore.og_title := None |}.

Definition untitled_page : PriceBefore.soup :=
  {| PriceBefore.select_one_text := fun _ => None;
     PriceBefore.og_title := None |}.

(** The title [«Apple» iPhone]; 171 and 187 are the guillemets. *)
Definition guillemet_title : str := [171] ++ u "Apple" ++ [187] ++ u " iPhone".

(** The decoding of one entry of the performance log, as [scan_logs]
    does it before any request: the URL to fetch, or [None] for an entry
    to skip. *)
Definition entry_candidate (lower : str -> str)
    (json_loads : str -> exc pyval) (log : pyval) : exc (option pyval) :=
  (raw <- py_getitem_str log (u "message") ;;
   message <- loads_value json_loads raw ;;
   inner <- py_getitem_str message (u "message") ;;
   method <- py_getitem_str inner (u "method") ;;
   if is_pstr (u "Network.responseReceived") method then
     params <- py_getitem_str inner (u "params") ;;
     response <- py_getitem_str params (u "response") ;;
     url <- py_getitem_str response (u "url") ;;
     wanted <- url_has_keyword lower url ;;
     Ok (if wanted then Some url else None)
   else Ok None)%exc.

(** A value is Python's [None] or a mapping. *)
Definition none_or_mapping (v : pyval) : Prop :=
  v = PNone \/ exists d, v = PDict d.

(** A value is Python's [None], or a mapping with the keys 'labels' and
    'data'. *)
Definition none_or_series (v : pyval) : Prop :=
  v = PNone \/ mapping_with (u "labels") (u "data") v.

(** A browser whose probe finds a one-record sequence, which the
    validator accepts. *)
Definition sequence_browser : chart_browser :=
  {| canvas_load := Ok tt;
     probe := Ok (PList [PDict [ (u "date", PStr (u "d1"));
                                 (u "price", PInt 5) ]]);
     performance_log := Ok [] |}.

(** An entry [{'date': d, 'price': p}]. *)
Definition is_point (v : pyval) : Prop :=
  exists d p, v = PriceBefore.point d p.

(** An entry dated a whole number of weeks after 2022-11-01. *)
Definition weekly_point (v : pyval) : Prop :=
  exists i p,
    v = PriceBefore.point
          (PStr (Datetime.strftime_ymd
                   (weeks_after PriceBefore.start_date i))) p.

(** An entry of the synthetic generator: a day from 2022-11-01 to
    2025-08-02 and an integer price of at least 100. *)
Definition synthetic_point (v : pyval) : Prop :=
  exists o p,
    738460 <= o <= 739465 /\ 100 <= p /\
    v = PriceBefore.point
          (PStr (Datetime.strftime_ymd (Datetime.fromordinal o))) (PInt p).

(** A series is empty or has more than ten entries, all weekly. *)
Definition embedded_series (l : list pyval) : Prop :=
  (l = [] \/ (10 < length l)%nat) /\ Forall weekly_point l.

(** The row [save_to_csv] writes for an entry of a product. *)
Definition entry_row (t b : str) (price_entry : pyval) : list pyval :=
  match PriceBefore.csv_row t b price_entry with
  | Ok row => row
  | Raise _ => []
  end.

(** The rows of a product, and of a list of products, in order. *)
Definition product_rows (pd : PriceBefore.product_data)
  : list (list pyval) :=
  map (entry_row (PriceBefore.title pd) (PriceBefore.brand pd))
      (PriceBefore.price_data pd).

(** A record whose series is non-empty and made of date/price entries. *)
Definition writable_record (pd : PriceBefore.product_data) : Prop :=
  PriceBefore.price_data pd <> [] /\
  Forall is_point (PriceBefore.price_data pd).

(** The records [scrape_multiple_products] keeps. *)
Definition kept (result : option PriceBefore.product_data)
  : list PriceBefore.product_data :=
  match result with
  | Some pd =>
      match PriceBefore.price_data pd with
      | _ :: _ => [pd]
      | [] => []
      end
  | None => []
  end.

(** A text does not begin with white space; a text neither begins nor
    ends with white space. *)
Definition no_lead (s : str) : Prop :=
  match s with
  | [] => True
  | c :: _ => py_isspace c = false
  end.

Definition stripped (s : str) : Prop := no_lead s /\ no_lead (rev s).

(** What every URL of the list is: not empty, without white space around
    it, and beginning neither with [#] nor with [/]. *)
Definition url_ok (url : str) : Prop :=
  url <> [] /\ stripped url /\
  str_prefix (u "#") url = false /\ str_prefix (u "/") url = false.

(** A brand is the placeholder or is made of word characters and
    hyphens only. *)
Definition brand_ok (unicode_isalnum : Z -> bool) (b : str) : Prop :=
  b = u "Unknown Brand" \/
  Forall (fun c => PriceBefore.is_word unicode_isalnum c || (c =? 45)
                   = true) b.

(** A world whose request fails and whose browser shows an [h1]
    holding only white space. *)
Definition blank_h1_browser : PriceBefore.browser :=
  {| PriceBefore.page_load := Ok tt;
     PriceBefore.h1_text := Ok (u "   ");
     PriceBefore.script_result := Ok PNone |}.

Definition blank_h1_world : PriceBefore.world :=
  {| PriceBefore.http_get := Raise IOError;
     PriceBefore.parse_html := fun _ => Raise IOError;
     PriceBefore.driver := Some blank_h1_browser;
     PriceBefore.random := PriceBefore.random dead_world |}.

(** [{"labels": [], "data": []}]: a chart with no point. *)
Definition empty_chart : pyval := formatted [] [].

(** What cutting [five_labels_three_values] to the shorter length would
    give: [{"labels": ["a","b","c"], "data": [1, 2, 3]}]. *)
Definition three_labels_three_values : pyval :=
  formatted [PStr (u "a"); PStr (u "b"); PStr (u "c")]
            [PInt 1; PInt 2; PInt 3].

(** A price entry with its keys in another order and one key more:
    [{"price": 1, "date": "d", "extra": null}]. *)
Definition loose_entry : pyval :=
  PDict [(u "price", PInt 1); (u "date", PStr (u "d")); (u "extra", PNone)].

(** * Facts about text and keys *)

Lemma str_eqb_eq (a b : str) : str_eqb a b = true <-> a = b.
Proof.
  revert b; induction a as [|x a IH]; intros [|y b]; simpl;
    try (split; [discriminate | congruence]); try tauto.
  rewrite andb_true_iff, Z.eqb_eq, IH.
  split; [intros [-> ->]; reflexivity | intros E; inversion E; auto].
Qed.

Lemma has_key_In (k : str) (d : list (str * pyval)) :
  has_key k d = true <-> In k (map fst d).
Proof.
  unfold has_key. rewrite existsb_exists, in_map_iff.
  split.
  - intros [kv [Hin Heq]]. apply str_eqb_eq in Heq. exists kv. auto.
  - intros [kv [Heq Hin]]. exists kv. split; [assumption|].
    apply str_eqb_eq. auto.
Qed.

Lemma lookup_has_key (k : str) (d : list (str * pyval)) (v : pyval) :
  lookup k d = Some v -> has_key k d = true.
Proof.
  unfold lookup, has_key. destruct (find _ d) as [kv|] eqn:F; [|discriminate].
  intros _. apply find_some in F. apply existsb_exists. exists kv. exact F.
Qed.

Lemma has_key_lookup (k : str) (d : list (str * pyval)) :
  has_key k d = true -> exists v, lookup k d = Some v.
Proof.
  unfold lookup, has_key. intros H.
  destruct (find _ d) as [kv|] eqn:F; [eauto|].
  apply existsb_exists in H. destruct H as [kv [Hin Heq]].
  apply (find_none _ _ F) in Hin. congruence.
Qed.

(** * The validator *)

Arguments has_key : simpl never.

Ltac split_has_key :=
  repeat match goal with
         | |- context [has_key ?k ?d] => destruct (has_key k d); simpl
         end.

(** The validator, in the error monad, computes the decision [shape_ok]
    and raises nothing. *)
Lemma validate_price_data_shape (data : pyval) :
  validate_price_data data = Ok (shape_ok data).
Proof.
  destruct data as [| b | n | m e | s | l | d];
    unfold validate_price_data, shape_ok, pair_present; simpl.
  - reflexivity.
  - destruct b; reflexivity.
  - destruct (n =? 0); reflexivity.
  - destruct (m =? 0); reflexivity.
  - destruct s; reflexivity.
  - destruct l as [| first rest]; [reflexivity|]. simpl.
    destruct first; simpl; try reflexivity.
    split_has_key; reflexivity.
  - destruct d as [| kv d']; [reflexivity|]. simpl.
    split_has_key; reflexivity.
Qed.

Lemma pair_present_mapping_with (k1 k2 : str) (d : list (str * pyval)) :
  pair_present k1 k2 d = true <-> mapping_with k1 k2 (PDict d).
Proof.
  unfold pair_present, mapping_with.
  rewrite andb_true_iff, !has_key_In. split.
  - intros [H1 H2]. exists d. auto.
  - intros [d0 [E [H1 H2]]]. inversion E; subst. auto.
Qed.

Lemma key_among (ks : list str) (item : list (str * pyval)) :
  existsb (fun k => has_key k item) ks = true <->
  exists k, In k ks /\ In k (map fst item).
Proof.
  rewrite existsb_exists. split; intros [k [H1 H2]]; exists k;
    (split; [assumption | apply has_key_In; assumption]).
Qed.

Lemma shape_ok_rules (data : pyval) :
  shape_ok data = true <-> rules_on_keys data.
Proof.
  unfold rules_on_keys. split.
  - destruct data as [| b | n | m e | s | l | d]; cbn [shape_ok]; try discriminate.
    + destruct l as [| [| | | | | | item] rest]; try discriminate.
      rewrite andb_true_iff, !key_among. intros [Hp Hd].
      right; right; right. exists item, rest. auto.
    + rewrite !orb_true_iff, !pair_present_mapping_with. tauto.
  - intros [H | [H | [H | H]]].
    + destruct H as [d [-> H]]. cbn [shape_ok].
      assert (P : pair_present (u "labels") (u "data") d = true)
        by (apply pair_present_mapping_with; exists d; auto).
      rewrite P. reflexivity.
    + destruct H as [d [-> H]]. cbn [shape_ok].
      assert (P : pair_present (u "dates") (u "prices") d = true)
        by (apply pair_present_mapping_with; exists d; auto).
      rewrite P. apply orb_true_iff. left. apply orb_true_r.
    + destruct H as [d [-> H]]. cbn [shape_ok].
      assert (P : pair_present (u "x") (u "y") d = true)
        by (apply pair_present_mapping_with; exists d; auto).
      rewrite P. apply orb_true_r.
    + destruct H as [item [rest [-> [Hp Hd]]]]. cbn [shape_ok].
      apply andb_true_iff. split; apply key_among; assumption.
Qed.

(** C1, as the code has it: [validate_price_data] returns true exactly
    for a mapping with the keys 'labels' and 'data', a mapping with the
    keys 'dates' and 'prices', a mapping with the keys 'x' and 'y', and a
    non-empty sequence whose first element is a mapping with one of the
    price keys and one of the date keys; it returns false for every other
    candidate.  Only the keys are looked at: the values may be anything. *)
Theorem validate_price_data_rules (data : pyval) :
  (validate_price_data data = Ok true <-> rules_on_keys data) /\
  (~ rules_on_keys data -> validate_price_data data = Ok false).
Proof.
  rewrite validate_price_data_shape, <- shape_ok_rules.
  split.
  - split; [intros H; inversion H; reflexivity | intros ->; reflexivity].
  - destruct (shape_ok data); [intros H; elim H|]; reflexivity.
Qed.

Lemma validate_price_data_rules_witness :
  validate_price_data (PList []) = Ok false.
Proof.
  apply (proj2 (validate_price_data_rules (PList []))).
  intros H. apply shape_ok_rules in H. discriminate H.
Defined.

(** C1, as worded: rule 1 asks for an array under 'data', but the
    mapping [{"labels": 1, "data": 2}] is accepted although it matches
    none of the four rules. *)
Lemma validate_price_data_accepts_scalars_under_keys :
  validate_price_data (PDict [(u "labels", PInt 1); (u "data", PInt 2)])
    = Ok true /\
  ~ rules_as_worded (PDict [(u "labels", PInt 1); (u "data", PInt 2)]).
Proof.
  split; [reflexivity|].
  intros [H | [H | [H | H]]].
  - destruct H as [d [l [E [_ L]]]]. inversion E; subst d.
    vm_compute in L. discriminate L.
  - destruct H as [d [E [H _]]]. inversion E; subst d.
    simpl in H. destruct H as [H | [H | []]]; discriminate H.
  - destruct H as [d [E [H _]]]. inversion E; subst d.
    simpl in H. destruct H as [H | [H | []]]; discriminate H.
  - destruct H as [item [rest [E _]]]. discriminate E.
Qed.

(** C6: [validate_price_data] returns a boolean for every candidate and
    raises nothing; on a structurally malformed candidate (a scalar or
    [None], an empty collection, a sequence whose first element is not a
    mapping, a mapping or first record lacking a required key) the boolean
    is false. *)
Theorem validate_price_data_total (data : pyval) :
  exists b : bool,
    validate_price_data data = Ok b /\
    (malformed data = true -> b = false).
Proof.
  exists (shape_ok data). split; [apply validate_price_data_shape|].
  destruct data as [| b | n | m e | s | l | d];
    cbn [shape_ok malformed]; try reflexivity.
  - destruct l as [| [| | | | | | item] rest]; try reflexivity.
    destruct (existsb _ price_keys), (existsb _ date_keys);
      simpl; intros H; try reflexivity; discriminate H.
  - destruct (pair_present (u "labels") (u "data") d),
             (pair_present (u "dates") (u "prices") d),
             (pair_present (u "x") (u "y") d);
      simpl; intros H; try reflexivity; discriminate H.
Qed.

Lemma validate_price_data_total_witness :
  exists b : bool,
    validate_price_data (PList [PInt 1; PInt 2]) = Ok b /\ b = false.
Proof.
  destruct (validate_price_data_total (PList [PInt 1; PInt 2]))
    as [b [E F]].
  exists b. split; [exact E | apply F; reflexivity].
Defined.

(** * The normaliser *)

Section Normaliser.

Variable unicode_lower : str -> str.

(** No lower-cased key is both a date key and a price key, so the
    [elif] hides nothing. *)
Lemma date_key_not_price_key (k : str) :
  str_mem k date_keys = true -> str_mem k price_keys = false.
Proof.
  unfold str_mem. rewrite existsb_exists.
  intros [k' [Hin Heq]]. apply str_eqb_eq in Heq. subst k'.
  simpl in Hin.
  destruct Hin as [<- | [<- | [<- | [<- | []]]]]; reflexivity.
Qed.

(** The scan of one record keeps, for each of the two key sets, the
    value under the last matching key. *)
Lemma scan_last_match (kvs : list (str * pyval)) (d0 p0 : pyval) :
  fold_left (scan_step unicode_lower) kvs (d0, p0) =
  (or_else (last_match unicode_lower date_keys kvs) d0,
   or_else (last_match unicode_lower price_keys kvs) p0).
Proof.
  revert d0 p0. induction kvs as [| [k v] rest IH]; intros d0 p0.
  - reflexivity.
  - cbn [fold_left scan_step last_match].
    destruct (str_mem (py_lower unicode_lower k) date_keys) eqn:D.
    + rewrite (date_key_not_price_key _ D), IH.
      destruct (last_match unicode_lower date_keys rest),
               (last_match unicode_lower price_keys rest); reflexivity.
    + destruct (str_mem (py_lower unicode_lower k) price_keys) eqn:P;
        rewrite IH;
        destruct (last_match unicode_lower date_keys rest),
                 (last_match unicode_lower price_keys rest); reflexivity.
Qed.

Lemma format_item_point (st : list pyval * list pyval) (item : pyval) :
  format_item unicode_lower st item =
  Ok (fst st ++ map fst (record_point (last_match unicode_lower) item),
      snd st ++ map snd (record_point (last_match unicode_lower) item)).
Proof.
  destruct st as [ls ds].
  destruct item as [| b | n | m e | s | l | kvs];
    try (cbn; rewrite !app_nil_r; reflexivity).
  unfold format_item, record_point.
  cbn [isinstance_dict py_items bind fst snd].
  rewrite scan_last_match.
  destruct (last_match unicode_lower date_keys kvs) as [d|],
           (last_match unicode_lower price_keys kvs) as [p|];
    cbn [or_else is_none negb andb];
    try (rewrite !app_nil_r; reflexivity).
  - destruct (negb (is_none d) && negb (is_none p));
      cbn; rewrite ?app_nil_r; reflexivity.
  - rewrite andb_false_r, !app_nil_r. reflexivity.
Qed.

Lemma format_items_points (items : list pyval)
    (st : list pyval * list pyval) :
  format_items unicode_lower st items =
  Ok (fst st ++
        map fst (flat_map (record_point (last_match unicode_lower)) items),
      snd st ++
        map snd (flat_map (record_point (last_match unicode_lower)) items)).
Proof.
  revert st. induction items as [| item rest IH]; intros st.
  - cbn. rewrite !app_nil_r. destruct st; reflexivity.
  - cbn [format_items flat_map]. rewrite format_item_point.
    cbn [bind]. rewrite IH. cbn [fst snd].
    rewrite !map_app, !app_assoc. reflexivity.
Qed.

(** C3, as the code has it: normalising a sequence scans each record's
    key-value pairs in order and keeps the value under the LAST key whose
    lower-cased name is a date key as the date, and under the last key
    whose lower-cased name is a price key as the price; a record missing
    either, or whose kept value is [None], and an element that is not a
    mapping, give no point.  The sequence
    [[{"time":"t1","value":10},{"x":"t2"}]] normalises to the single
    point with date "t1" and price 10. *)
Theorem format_price_data_records (items : list pyval) :
  format_price_data unicode_lower (PList items) =
    Ok (series_of_records (last_match unicode_lower) items) /\
  format_price_data unicode_lower
    (PList [ PDict [(u "time", PStr (u "t1")); (u "value", PInt 10)];
             PDict [(u "x", PStr (u "t2"))] ]) =
    Ok (formatted [PStr (u "t1")] [PInt 10]).
Proof.
  assert (G : forall l, format_price_data unicode_lower (PList l) =
                        Ok (series_of_records (last_match unicode_lower) l)).
  { intros l. unfold format_price_data, series_of_records.
    cbn [isinstance_dict isinstance_list py_iter bind].
    rewrite format_items_points. reflexivity. }
  split; [apply G|]. rewrite G. reflexivity.
Qed.

(** C9: a mapping accepted through its 'x' and 'y' keys alone, having
    neither the labels/data pair nor the dates/prices pair, passes the
    validator and normalises to the empty series. *)
Theorem format_price_data_discards_x_y (d : list (str * pyval)) :
  In (u "x") (map fst d) ->
  In (u "y") (map fst d) ->
  ~ (In (u "labels") (map fst d) /\ In (u "data") (map fst d)) ->
  ~ (In (u "dates") (map fst d) /\ In (u "prices") (map fst d)) ->
  validate_price_data (PDict d) = Ok true /\
  format_price_data unicode_lower (PDict d) = Ok (formatted [] []).
Proof.
  rewrite <- !has_key_In. intros Hx Hy Hl Hd.
  split.
  - rewrite validate_price_data_shape. cbn [shape_ok].
    unfold pair_present. rewrite Hx, Hy, orb_true_r. reflexivity.
  - unfold format_price_data.
    cbn [isinstance_dict py_in andM bind].
    destruct (has_key (u "labels") d) eqn:L1;
      [destruct (has_key (u "data") d) eqn:L2; [elim Hl; auto|]|];
      (destruct (has_key (u "dates") d) eqn:D1;
        [destruct (has_key (u "prices") d) eqn:D2; [elim Hd; auto|]|]);
      reflexivity.
Qed.

(** C10: the record sequence [[{"Date": "2023-01-01", "Price": 10}]] is
    rejected by the validator, whose key test is case-sensitive, although
    the normaliser, which lower-cases the keys, makes a point of it; with
    the keys in lower case the validator accepts it. *)
Theorem validate_case_sensitive_format_not :
  validate_price_data
    (PList [PDict [ (u "Date", PStr (u "2023-01-01"));
                    (u "Price", PInt 10) ]]) = Ok false /\
  format_price_data unicode_lower
    (PList [PDict [ (u "Date", PStr (u "2023-01-01"));
                    (u "Price", PInt 10) ]]) =
    Ok (formatted [PStr (u "2023-01-01")] [PInt 10]) /\
  validate_price_data
    (PList [PDict [ (u "date", PStr (u "2023-01-01"));
                    (u "price", PInt 10) ]]) = Ok true.
Proof.
  repeat split; reflexivity.
Qed.

End Normaliser.

Lemma format_price_data_discards_x_y_witness :
  validate_price_data
    (PDict [(u "x", PList [PInt 1]); (u "y", PList [PInt 2])]) = Ok true /\
  format_price_data (fun s => s)
    (PDict [(u "x", PList [PInt 1]); (u "y", PList [PInt 2])]) =
    Ok (formatted [] []).
Proof.
  apply (format_price_data_discards_x_y (fun s => s)
           [(u "x", PList [PInt 1]); (u "y", PList [PInt 2])]).
  - simpl. auto.
  - simpl. auto.
  - simpl. intros [[H | [H | []]] _]; discriminate H.
  - simpl. intros [[H | [H | []]] _]; discriminate H.
Defined.

(** C3, as worded: with two date keys in one record the code keeps the
    last one, "t1", where taking the first matching key gives "d1". *)
Lemma format_price_data_keeps_last_key :
  format_price_data (fun s => s) (PList two_date_keys) =
    Ok (formatted [PStr (u "t1")] [PInt 5]) /\
  series_of_records (first_match (fun s => s)) two_date_keys =
    formatted [PStr (u "d1")] [PInt 5] /\
  format_price_data (fun s => s) (PList two_date_keys) <>
    Ok (series_of_records (first_match (fun s => s)) two_date_keys).
Proof.
  repeat split; try reflexivity.
  intros H. vm_compute in H. discriminate H.
Qed.

(** * Pairing labels with values *)

Lemma skipn_nth_cons (A : Type) (l : list A) (a : nat) (x : A) :
  (a < length l)%nat -> skipn a l = nth a l x :: skipn (S a) l.
Proof.
  revert a. induction l as [| y l IH]; intros a H; simpl in H.
  - lia.
  - destruct a as [| a]; [reflexivity|].
    cbn [skipn nth]. rewrite (IH a) by lia. reflexivity.
Qed.

(** The index loop of [extract_chart_data_advanced] over the indices
    [a, a+1, ..., a+k-1] pairs the two lists from position [a] on. *)
Lemma pair_loop_from (ls ds : list pyval) (k a : nat) (acc : list pyval) :
  (a + k <= length ls)%nat ->
  PriceBefore.pair_loop (PList ls) (PList ds)
      (map Z.of_nat (seq a k)) acc =
  Ok (acc ++ map point_of
               (combine (firstn k (skipn a ls)) (firstn k (skipn a ds)))).
Proof.
  revert a acc. induction k as [| k IH]; intros a acc H.
  - cbn. rewrite app_nil_r. reflexivity.
  - cbn [seq map PriceBefore.pair_loop py_len bind].
    destruct (Z.of_nat a <? Z.of_nat (length ds)) eqn:C.
    + apply Z.ltb_lt in C.
      cbn [py_getitem_int].
      assert (B1 : (0 <=? Z.of_nat a) && (Z.of_nat a <? Z.of_nat (length ls))
                   = true).
      { apply andb_true_iff. split; [apply Z.leb_le | apply Z.ltb_lt]; lia. }
      assert (B2 : (0 <=? Z.of_nat a) && (Z.of_nat a <? Z.of_nat (length ds))
                   = true).
      { apply andb_true_iff. split; [apply Z.leb_le | apply Z.ltb_lt]; lia. }
      rewrite B1, B2. cbn [bind]. rewrite Nat2Z.id.
      rewrite IH by lia.
      rewrite (skipn_nth_cons ls PNone (a := a)) by lia.
      rewrite (skipn_nth_cons ds PNone (a := a)) by lia.
      cbn [firstn combine map]. rewrite <- app_assoc. reflexivity.
    + apply Z.ltb_ge in C.
      rewrite IH by lia.
      rewrite (skipn_all2 ds (n := a)) by lia.
      rewrite (skipn_all2 ds (n := S a)) by lia.
      rewrite !firstn_nil, !combine_nil. reflexivity.
Qed.

Lemma combine_firstn_min (A B : Type) (ls : list A) (ds : list B) :
  combine (firstn (Nat.min (length ls) (length ds)) ls)
          (firstn (Nat.min (length ls) (length ds)) ds) = combine ls ds.
Proof.
  revert ds. induction ls as [| x ls IH]; intros [| y ds]; try reflexivity.
  cbn [length Nat.min firstn combine]. rewrite IH. reflexivity.
Qed.

Lemma combine_firstn_length (A B : Type) (ls : list A) (ds : list B) :
  combine ls (firstn (length ls) ds) = combine ls ds.
Proof.
  revert ds. induction ls as [| x ls IH]; intros [| y ds]; try reflexivity.
  cbn [length firstn combine]. rewrite IH. reflexivity.
Qed.

Section Pairing.

Variable unicode_lower : str -> str.

(** C4, as the code has it: for a labels/data mapping with arrays [ls]
    and [ds] of any lengths, normalising raises nothing and hands the
    mapping on as it is, with all its labels and all its values; it is
    only where points are made of it, in the rows [save_to_csv] writes
    and in the points the browser path builds, that the pairs stop at the
    shorter array: they are the pairs of the first
    [min(len ls, len ds)] elements of each array, in order. *)
Theorem labels_data_pair_up_to_shorter
    (d : list (str * pyval)) (ls ds : list pyval) :
  lookup (u "labels") d = Some (PList ls) ->
  lookup (u "data") d = Some (PList ds) ->
  let n := Nat.min (length ls) (length ds) in
  format_price_data unicode_lower (PDict d) = Ok (PDict d) /\
  (r <- format_price_data unicode_lower (PDict d) ;; csv_rows r) =
    Ok (combine (firstn n ls) (firstn n ds)) /\
  length (combine (firstn n ls) (firstn n ds)) = n /\
  PriceBefore.chart_points (PDict d) =
    Ok (match ls, ds with
        | _ :: _, _ :: _ =>
            Some (map point_of (combine (firstn n ls) (firstn n ds)))
        | _, _ => None
        end).
Proof.
  intros Hl Hd n.
  assert (Kl := lookup_has_key _ _ Hl).
  assert (Kd := lookup_has_key _ _ Hd).
  assert (F : format_price_data unicode_lower (PDict d) = Ok (PDict d)).
  { unfold format_price_data.
    cbn [isinstance_dict py_in andM bind]. rewrite Kl, Kd. reflexivity. }
  assert (T : truthy (PDict d) = true).
  { destruct d; [discriminate Hl | reflexivity]. }
  split; [exact F|]. rewrite F. cbn [bind].
  split; [|split].
  - unfold csv_rows. cbn [py_getitem_str]. rewrite Hl, Hd.
    cbn [bind py_iter]. unfold n. rewrite combine_firstn_min. reflexivity.
  - rewrite length_combine, !length_firstn. unfold n. lia.
  - unfold PriceBefore.chart_points. rewrite T.
    cbn [PriceBefore.py_get py_getitem_str]. rewrite Hl, Hd.
    cbn [bind].
    destruct ls as [| l0 ls']; [reflexivity|].
    destruct ds as [| d0 ds']; [reflexivity|].
    cbn [truthy bind py_len]. unfold PriceBefore.py_range.
    rewrite Nat2Z.id.
    rewrite (@pair_loop_from (l0 :: ls') (d0 :: ds')
               (length (l0 :: ls')) 0%nat []) by lia.
    cbn [bind skipn app]. rewrite firstn_all, combine_firstn_length.
    unfold n. rewrite combine_firstn_min. reflexivity.
Qed.

End Pairing.

Lemma labels_data_pair_up_to_shorter_witness :
  format_price_data (fun s => s) (PDict five_labels_three_values) =
    Ok (PDict five_labels_three_values) /\
  (r <- format_price_data (fun s => s) (PDict five_labels_three_values) ;;
   csv_rows r) =
    Ok [ (PStr (u "a"), PInt 1); (PStr (u "b"), PInt 2);
         (PStr (u "c"), PInt 3) ] /\
  length [ (PStr (u "a"), PInt 1); (PStr (u "b"), PInt 2);
           (PStr (u "c"), PInt 3) ] = 3%nat /\
  PriceBefore.chart_points (PDict five_labels_three_values) =
    Ok (Some [ PriceBefore.point (PStr (u "a")) (PInt 1);
               PriceBefore.point (PStr (u "b")) (PInt 2);
               PriceBefore.point (PStr (u "c")) (PInt 3) ]).
Proof.
  exact (@labels_data_pair_up_to_shorter (fun s => s)
           five_labels_three_values
           [PStr (u "a"); PStr (u "b"); PStr (u "c"); PStr (u "d");
            PStr (u "e")]
           [PInt 1; PInt 2; PInt 3] eq_refl eq_refl).
Defined.

(** C4, as worded: normalising the mapping with 5 labels and 3 values
    does not cut it to 3 points; it returns the mapping as it is, with
    its 5 labels. *)
Lemma format_price_data_keeps_longer_array :
  format_price_data (fun s => s) (PDict five_labels_three_values) =
    Ok (PDict five_labels_three_values) /\
  (r <- format_price_data (fun s => s) (PDict five_labels_three_values) ;;
   labels <- py_getitem_str r (u "labels") ;; py_len labels) = Ok 5 /\
  format_price_data (fun s => s) (PDict five_labels_three_values) <>
    Ok three_labels_three_values.
Proof.
  repeat split; try reflexivity.
  intros H. vm_compute in H. discriminate H.
Qed.

(** * The weekly generator *)

Section Weekly.

Variable py_hash : str -> Z.
Variable float_price : Z -> Z -> Z.

Lemma map_seq_succ (A : Type) (f : nat -> A) (m : nat) :
  map f (seq 0 (S m)) = f 0%nat :: map (fun i => f (S i)) (seq 0 m).
Proof.
  cbn [seq map]. rewrite <- seq_shift, map_map. reflexivity.
Qed.

Lemma weeks_after_succ (d : Datetime.datetime) (i : nat) :
  weeks_after d (S i) =
  weeks_after (Datetime.fromordinal (Datetime.toordinal d + 7)) i.
Proof.
  unfold weeks_after. cbn [Datetime.toordinal]. f_equal. lia.
Qed.

(** From a day [d] with exactly [m] weekly steps left up to the end
    date, the loop runs [m] turns and stops, whatever fuel is left over. *)
Lemma sample_loop_weeks (m : nat) :
  forall (d : Datetime.datetime) (dates prices : list pyval) (fuel : nat),
    (m < fuel)%nat ->
    0 < Datetime.toordinal d ->
    Datetime.toordinal d + 7 * Z.of_nat m > Datetime.toordinal end_date ->
    (m = 0%nat \/
     Datetime.toordinal d + 7 * (Z.of_nat m - 1)
       <= Datetime.toordinal end_date) ->
    sample_loop py_hash float_price fuel d dates prices =
    Some (Ok (dates ++
                map (fun i => PStr (Datetime.strftime_ymd (weeks_after d i)))
                    (seq 0 m),
              prices ++
                map (fun i => sample_price py_hash float_price (weeks_after d i))
                    (seq 0 m))).
Proof.
  assert (E : Datetime.toordinal end_date = 739465) by reflexivity.
  induction m as [| m IH]; intros d dates prices fuel Hf Hpos Hout Hin;
    (destruct fuel as [| fuel]; [lia|]); cbn [sample_loop].
  - unfold Datetime.le.
    replace (Datetime.toordinal d <=? Datetime.toordinal end_date)
      with false by (symmetry; apply Z.leb_gt; lia).
    cbn. rewrite !app_nil_r. reflexivity.
  - destruct Hin as [Hin | Hin]; [discriminate Hin|].
    unfold Datetime.le.
    replace (Datetime.toordinal d <=? Datetime.toordinal end_date)
      with true by (symmetry; apply Z.leb_le; lia).
    unfold Datetime.add_days.
    replace ((0 <? Datetime.toordinal d + 7) &&
             (Datetime.toordinal d + 7 <=? Datetime.MAXORDINAL))
      with true
      by (symmetry; apply andb_true_iff; unfold Datetime.MAXORDINAL;
          split; [apply Z.ltb_lt | apply Z.leb_le]; lia).
    rewrite IH; cbn [Datetime.toordinal]; try lia.
    rewrite !map_seq_succ, <- !app_assoc. cbn [app].
    assert (W0 : weeks_after d 0 = d).
    { unfold weeks_after. destruct d as [o]. cbn [Datetime.toordinal].
      f_equal. lia. }
    rewrite W0.
    do 3 f_equal.
    + f_equal. f_equal. apply map_ext. intros i.
      rewrite weeks_after_succ. reflexivity.
    + f_equal. f_equal. apply map_ext. intros i.
      rewrite weeks_after_succ. reflexivity.
Qed.

(** With enough fuel the weekly generator returns [weekly_series]. *)
Lemma generate_sample_data_series (fuel : nat) :
  (145 <= fuel)%nat ->
  generate_sample_data py_hash float_price fuel =
    Some (Ok (weekly_series py_hash float_price)).
Proof.
  intros Hf. unfold generate_sample_data.
  rewrite (@sample_loop_weeks 144 start_date [] [] fuel).
  - reflexivity.
  - lia.
  - reflexivity.
  - reflexivity.
  - right. vm_compute. discriminate.
Qed.

(** C7: with enough fuel for the loop, [generate_sample_data] returns a
    series whose dates are the days [start + 7 * i] for [i] below the
    number of weekly boundaries between 2022-11-01 and 2025-08-02
    inclusive, which is 144, from "2022-11-01" to "2025-07-29"; there are
    as many prices; the count and the dates are the same for every string
    hash and every outcome of the floating-point price formula. *)
Theorem generate_sample_data_weekly (fuel : nat) :
  (145 <= fuel)%nat ->
  let n := weekly_boundaries start_date end_date in
  generate_sample_data py_hash float_price fuel =
    Some (Ok (formatted
      (map (fun i => PStr (Datetime.strftime_ymd (weeks_after start_date i)))
           (seq 0 n))
      (map (fun i => sample_price py_hash float_price
                       (weeks_after start_date i)) (seq 0 n))))
  /\ n = 144%nat
  /\ Datetime.strftime_ymd (weeks_after start_date 0) = u "2022-11-01"
  /\ Datetime.strftime_ymd (weeks_after start_date 143) = u "2025-07-29".
Proof.
  intros Hf n.
  assert (N : n = 144%nat) by reflexivity.
  split; [| split; [exact N | split; reflexivity]].
  rewrite N. apply generate_sample_data_series. exact Hf.
Qed.

End Weekly.

Lemma generate_sample_data_weekly_witness :
  generate_sample_data (fun _ => 0) (fun days _ => 2999 + days) 145 =
    Some (Ok (formatted
      (map (fun i => PStr (Datetime.strftime_ymd (weeks_after start_date i)))
           (seq 0 144))
      (map (fun i =>
              sample_price (fun _ => 0) (fun days _ => 2999 + days)
                (weeks_after start_date i))
           (seq 0 144)))).
Proof.
  apply (@generate_sample_data_weekly
           (fun _ => 0) (fun days _ => 2999 + days) 145).
  apply le_n.
Defined.

(** * The fallback *)

(** From the day [o], the loop of [generate_sample_price_data] stops
    within [end - o + 1] turns, and appends at least one point when [o]
    is not after the end date. *)
Lemma sample_price_loop_stops (r : PriceBefore.rng) :
  randint_in_range r ->
  forall (fuel : nat) (o : Z) (k : nat) (acc : list pyval),
    0 < o ->
    (Z.to_nat (739466 - o) < fuel)%nat ->
    exists l,
      PriceBefore.sample_price_loop r fuel k (Datetime.fromordinal o) acc
        = Some (Ok (acc ++ l)) /\
      (o <= 739465 -> l <> []).
Proof.
  intros Hr.
  assert (E : Datetime.toordinal PriceBefore.end_date = 739465)
    by reflexivity.
  induction fuel as [| fuel IH]; intros o k acc Hpos Hf; [lia|].
  cbn [PriceBefore.sample_price_loop]. unfold Datetime.le.
  cbn [Datetime.toordinal]. rewrite E.
  destruct (o <=? 739465) eqn:C.
  - apply Z.leb_le in C. unfold Datetime.add_days.
    cbn [Datetime.toordinal]. specialize (Hr k).
    replace ((0 <? o + PriceBefore.randint_1_7 r k) &&
             (o + PriceBefore.randint_1_7 r k <=? Datetime.MAXORDINAL))
      with true
      by (symmetry; apply andb_true_iff; unfold Datetime.MAXORDINAL;
          split; [apply Z.ltb_lt | apply Z.leb_le]; lia).
    destruct (IH (o + PriceBefore.randint_1_7 r k) (S k)
                (acc ++
                 [PriceBefore.point
                    (PStr (Datetime.strftime_ymd (Datetime.fromordinal o)))
                    (PInt (Z.max 100
                       (PriceBefore.priced r k
                          (Datetime.days_between (Datetime.fromordinal o)
                             PriceBefore.start_date))))]))
      as [l [El _]]; [lia | lia |].
    rewrite El, <- app_assoc. eexists. split; [reflexivity|].
    intros _. discriminate.
  - apply Z.leb_gt in C. exists []. rewrite app_nil_r.
    split; [reflexivity | lia].
Qed.

(** The synthetic generator returns, and returns a non-empty series. *)
Lemma generate_sample_price_data_nonempty (r : PriceBefore.rng)
    (fuel : nat) :
  randint_in_range r ->
  (1007 <= fuel)%nat ->
  exists l,
    PriceBefore.generate_sample_price_data r fuel = Some (Ok l) /\
    l <> [].
Proof.
  intros Hr Hf.
  destruct (@sample_price_loop_stops r Hr fuel 738460 0%nat [])
    as [l [El Hl]]; [lia | simpl; lia |].
  exists l. split; [exact El | apply Hl; lia].
Qed.

Lemma method_requests_returned (unicode_isalnum : Z -> bool)
    (re_findall : string -> list re_flag -> str -> list str)
    (json_loads : str -> exc pyval)
    (w : PriceBefore.world) (pd0 pd : PriceBefore.product_data) :
  PriceBefore.method_requests unicode_isalnum re_findall json_loads w pd0
    = (pd, true) ->
  PriceBefore.price_data pd <> [].
Proof.
  unfold PriceBefore.method_requests.
  destruct (PriceBefore.http_get w) as [[status text] | e];
    [| intros H; discriminate H].
  destruct (status =? 200); [| intros H; discriminate H].
  destruct (PriceBefore.parse_html w text) as [page | e];
    [| intros H; discriminate H].
  destruct (PriceBefore.extract_price_from_html re_findall json_loads text)
    as [| x l]; intros H; inversion H; subst. discriminate.
Qed.

Section Fallback.

Variable unicode_lower : str -> str.
Variable unicode_isalnum : Z -> bool.
Variable re_findall : string -> list re_flag -> str -> list str.
Variable json_loads : str -> exc pyval.
Variable py_hash : str -> Z.
Variable float_price : Z -> Z -> Z.

(** C2, as the code has it.  [extract_chart_data_advanced] always returns
    a record whose series is non-empty, and when the request and the
    browser both decline that series is the synthetic generator's.
    [scrape_price_history], when the turns of its two real methods end
    without returning, returns the synthetic weekly series if
    [save_to_csv] writes it, and [None] otherwise.  When its first method
    gives a value that passes the validator and is saved, it returns that
    value as it is, be its arrays empty: nothing there asks for a
    non-empty series. *)
Theorem synthetic_fallback (w : PriceBefore.world) (fuel : nat)
    (selenium : pyval) (page : exc (list (option str)))
    (sink_ok : nat -> bool) :
  randint_in_range (PriceBefore.random w) ->
  (1007 <= fuel)%nat ->
  (exists pd synthetic,
     PriceBefore.generate_sample_price_data (PriceBefore.random w) fuel
       = Some (Ok synthetic) /\
     synthetic <> [] /\
     PriceBefore.extract_chart_data_advanced unicode_isalnum re_findall
       json_loads fuel w = Some (Ok pd) /\
     PriceBefore.price_data pd <> [] /\
     (strategies_decline unicode_isalnum re_findall json_loads w ->
      PriceBefore.price_data pd = synthetic)) /\
  (method_declines (sink_ok 0%nat) (Ok selenium) ->
   method_declines (sink_ok 1%nat)
     (extract_from_page_source unicode_lower re_findall json_loads page) ->
   scrape_price_history unicode_lower re_findall json_loads py_hash
     float_price fuel selenium page sink_ok =
   Some (if sink_ok 2%nat then weekly_series py_hash float_price
         else PNone)) /\
  (truthy selenium = true ->
   validate_price_data selenium = Ok true ->
   save_to_csv (sink_ok 0%nat) selenium = Ok true ->
   scrape_price_history unicode_lower re_findall json_loads py_hash
     float_price fuel selenium page sink_ok = Some selenium).
Proof.
  intros Hr Hf. split; [|split].
  - destruct (generate_sample_price_data_nonempty Hr Hf)
      as [synthetic [G N]].
    unfold PriceBefore.extract_chart_data_advanced, strategies_decline.
    destruct (PriceBefore.method_requests unicode_isalnum re_findall
                json_loads w PriceBefore.initial_product_data)
      as [pd returned] eqn:M1.
    destruct returned.
    + exists pd, synthetic. repeat split; try assumption.
      * eapply method_requests_returned; eassumption.
      * cbn [snd]. intros [H _]. discriminate H.
    + cbn [fst snd].
      destruct (PriceBefore.price_data
                  (PriceBefore.method_selenium unicode_isalnum w pd))
        as [| x l] eqn:M2.
      * rewrite G. eexists. exists synthetic.
        repeat split; try assumption; try reflexivity.
      * eexists. exists synthetic.
        repeat split; try assumption; try reflexivity.
        -- rewrite M2. discriminate.
        -- intros [_ H]. discriminate H.
  - unfold method_declines, scrape_price_history. intros D0 D1.
    rewrite (generate_sample_data_series py_hash float_price (fuel := fuel))
      by lia.
    cbn [run_methods]. rewrite D0, D1.
    unfold weekly_series.
    generalize (map (fun i =>
                       PStr (Datetime.strftime_ymd (weeks_after start_date i)))
                    (seq 0 144)).
    generalize (map (fun i =>
                       sample_price py_hash float_price
                         (weeks_after start_date i)) (seq 0 144)).
    intros ps ds. destruct (sink_ok 2%nat); reflexivity.
  - intros T V S. unfold scrape_price_history.
    rewrite (generate_sample_data_series py_hash float_price (fuel := fuel))
      by lia.
    cbn [run_methods]. unfold try_method at 1. cbn [bind].
    rewrite T, V. cbn [bind]. rewrite S. reflexivity.
Qed.

End Fallback.

Lemma synthetic_fallback_witness :
  (exists pd synthetic,
     PriceBefore.generate_sample_price_data
       (PriceBefore.random dead_world) 1007 = Some (Ok synthetic) /\
     synthetic <> [] /\
     PriceBefore.extract_chart_data_advanced (fun _ => false)
       (fun _ _ _ => []) (fun _ => Raise JSONDecodeError) 1007 dead_world
       = Some (Ok pd) /\
     PriceBefore.price_data pd <> [] /\
     (strategies_decline (fun _ => false) (fun _ _ _ => [])
        (fun _ => Raise JSONDecodeError) dead_world ->
      PriceBefore.price_data pd = synthetic)) /\
  scrape_price_history (fun s => s) (fun _ _ _ => [])
    (fun _ => Raise JSONDecodeError) (fun _ => 0)
    (fun days _ => 2999 + days) 1007 PNone (Raise IOError) (fun _ => true)
  = Some (weekly_series (fun _ => 0) (fun days _ => 2999 + days)).
Proof.
  destruct (@synthetic_fallback (fun s => s) (fun _ => false)
              (fun _ _ _ => []) (fun _ => Raise JSONDecodeError)
              (fun _ => 0) (fun days _ => 2999 + days)
              dead_world 1007 PNone (Raise IOError) (fun _ => true))
    as [A [B _]].
  - intros k. simpl. lia.
  - apply le_n.
  - split; [exact A | apply B; reflexivity].
Defined.

(** C2, as worded: with the driver finding nothing, the page request
    failing and the output file not writable, both real methods decline
    and [scrape_price_history] returns [None], not the synthetic series;
    and with a probe that finds a chart with no point and a writable
    file, it returns that empty series. *)
Lemma scrape_price_history_none_when_unwritable :
  method_declines false (Ok PNone) /\
  method_declines false
    (extract_from_page_source (fun s => s) (fun _ _ _ => [])
       (fun _ => Raise JSONDecodeError) (Raise IOError)) /\
  scrape_price_history (fun s => s) (fun _ _ _ => [])
    (fun _ => Raise JSONDecodeError) (fun _ => 0)
    (fun days _ => 2999 + days) 145 PNone (Raise IOError) (fun _ => false)
  = Some PNone /\
  scrape_price_history (fun s => s) (fun _ _ _ => [])
    (fun _ => Raise JSONDecodeError) (fun _ => 0)
    (fun days _ => 2999 + days) 145 empty_chart (Raise IOError)
    (fun _ => true)
  = Some (formatted [] []).
Proof.
  repeat split; vm_compute; reflexivity.
Qed.

(** * The page-source extractor *)

Section PageSourceFacts.

Variable unicode_lower : str -> str.
Variable re_findall : string -> list re_flag -> str -> list str.
Variable json_loads : str -> exc pyval.

(** The normaliser raises nothing. *)
Lemma format_price_data_total (data : pyval) :
  format_price_data unicode_lower data = Ok (normalise unicode_lower data).
Proof.
  unfold normalise.
  destruct data as [| b | n | m e | s | l | d]; try reflexivity.
  - unfold format_price_data.
    cbn [isinstance_dict isinstance_list py_iter bind].
    rewrite format_items_points. reflexivity.
  - unfold format_price_data.
    cbn [isinstance_dict py_in andM bind py_getitem_str].
    destruct (has_key (u "labels") d);
      [destruct (has_key (u "data") d); [reflexivity|]|];
      (destruct (has_key (u "dates") d) eqn:D1; [|reflexivity];
       destruct (has_key (u "prices") d) eqn:D2; [|reflexivity];
       destruct (has_key_lookup _ _ D1) as [v1 ->];
       destruct (has_key_lookup _ _ D2) as [v2 ->]; reflexivity).
Qed.

Lemma first_accepted_app (a b : list str) :
  first_accepted json_loads (a ++ b) =
  match first_accepted json_loads a with
  | Some d => Some d
  | None => first_accepted json_loads b
  end.
Proof.
  induction a as [| m a IH]; [reflexivity|].
  cbn [app first_accepted]. destruct (accepted json_loads m); auto.
Qed.

(** One pattern: the [try] around the loop over its matches gives the
    first accepted match among those before the first decode failure. *)
Lemma try_matches_caught (ms : list str) :
  catch (try_matches unicode_lower json_loads ms) (Ok None) =
  Ok (option_map (normalise unicode_lower)
        (first_accepted json_loads (decodable_prefix json_loads ms))).
Proof.
  induction ms as [| m rest IH]; [reflexivity|].
  cbn [try_matches decodable_prefix]. unfold accepted.
  destruct (json_loads m) as [data | e] eqn:J; cbn [bind]; [|reflexivity].
  rewrite validate_price_data_shape. cbn [bind first_accepted].
  unfold accepted. rewrite J.
  destruct (shape_ok data).
  - rewrite format_price_data_total. reflexivity.
  - exact IH.
Qed.

Lemma scan_patterns_first (content : str) (ps : list string) :
  scan_patterns unicode_lower re_findall json_loads content ps =
  Ok (option_map (normalise unicode_lower)
        (first_accepted json_loads
           (flat_map
              (fun pattern =>
                 decodable_prefix json_loads
                   (re_findall pattern [IGNORECASE] content))
              ps))).
Proof.
  induction ps as [| pattern rest IH]; [reflexivity|].
  cbn [scan_patterns flat_map]. rewrite first_accepted_app.
  destruct (re_findall pattern [IGNORECASE] content) as [| m ms] eqn:F.
  - exact IH.
  - rewrite try_matches_caught. cbn [bind].
    destruct (first_accepted json_loads
                (decodable_prefix json_loads (m :: ms))); [reflexivity|].
    exact IH.
Qed.

Lemma scan_scripts_first (scripts : list (option str)) :
  scan_scripts unicode_lower re_findall json_loads scripts =
  Ok (option_map (normalise unicode_lower)
        (first_accepted json_loads
           (matches_in_order re_findall (decodable_prefix json_loads)
              scripts))).
Proof.
  unfold matches_in_order.
  induction scripts as [| script rest IH]; [reflexivity|].
  cbn [scan_scripts flat_map].
  destruct script as [[| c content] |]; try exact IH.
  rewrite first_accepted_app, scan_patterns_first. cbn [bind].
  destruct (first_accepted json_loads
              (flat_map
                 (fun pattern =>
                    decodable_prefix json_loads
                      (re_findall pattern [IGNORECASE] (c :: content)))
                 patterns));
    [reflexivity | exact IH].
Qed.

(** C5, as the code has it: [extract_from_page_source] raises nothing;
    when the page cannot be fetched it returns [None]; otherwise it
    returns the normalised form of the first matched substring, in the
    order scripts, patterns, matches, that decodes and passes the
    validator, among the matches that come before the first decode
    failure of their own pattern: a decode failure is swallowed, drops
    the remaining matches of that pattern, and the scan goes on with the
    next pattern. *)
Theorem extract_from_page_source_scan (page : exc (list (option str))) :
  extract_from_page_source unicode_lower re_findall json_loads page =
  Ok (match page with
      | Ok scripts =>
          first_normalised unicode_lower json_loads
            (matches_in_order re_findall (decodable_prefix json_loads)
               scripts)
      | Raise _ => PNone
      end).
Proof.
  unfold extract_from_page_source, first_normalised.
  destruct page as [scripts | e]; [|reflexivity].
  cbn [bind]. rewrite scan_scripts_first. cbn [bind].
  destruct (first_accepted json_loads _); reflexivity.
Qed.

End PageSourceFacts.

(** C5, as worded: the second [chartData] assignment decodes and passes
    the validator, and scanning all matches in order returns it; the code
    returns [None], because the first assignment fails to decode and the
    second is never tried. *)
Lemma extract_from_page_source_skips_after_failure :
  accepted toy_loads quoted_match =
    Some (PDict [ (u "labels", PList [PStr (u "a")]);
                  (u "data", PList [PInt 1]) ]) /\
  first_normalised (fun s => s) toy_loads
    (matches_in_order toy_findall (fun ms => ms) [Some two_assignments]) =
    PDict [ (u "labels", PList [PStr (u "a")]);
            (u "data", PList [PInt 1]) ] /\
  extract_from_page_source (fun s => s) toy_findall toy_loads
    (Ok [Some two_assignments]) = Ok PNone.
Proof.
  repeat split; vm_compute; reflexivity.
Qed.

(** * Title and brand *)

Lemma take_token_no_space (s : str) :
  Forall (fun c => py_isspace c = false) (take_token s).
Proof.
  induction s as [| c s IH]; cbn [take_token]; [constructor|].
  destruct (py_isspace c) eqn:C; constructor; assumption.
Qed.

(** While a token is being read, [split] completes it up to the next
    white space. *)
Lemma split_from_token (s cur : str) :
  cur <> [] ->
  exists rest, PriceBefore.split_from cur s = (cur ++ take_token s) :: rest.
Proof.
  revert cur. induction s as [| c s IH]; intros cur Hc.
  - cbn. rewrite app_nil_r. destruct cur; [congruence | eauto].
  - cbn [PriceBefore.split_from take_token]. destruct (py_isspace c).
    + rewrite app_nil_r. destruct cur; [congruence | eauto].
    + destruct (IH (cur ++ [c])) as [rest E].
      { destruct cur; discriminate. }
      rewrite E, <- app_assoc. eauto.
Qed.

(** The first word of [split()] is the first token; there is no word
    exactly when the first token is empty. *)
Lemma py_split_first_token (t : str) :
  match PriceBefore.py_split t with
  | [] => first_token t = []
  | w :: _ => w = first_token t
  end.
Proof.
  unfold PriceBefore.py_split, first_token.
  induction t as [| c t IH]; [reflexivity|].
  cbn [PriceBefore.split_from PriceBefore.lstrip].
  destruct (py_isspace c) eqn:C; [exact IH|].
  destruct (@split_from_token t ([] ++ [c])) as [rest E]; [discriminate|].
  rewrite E. cbn [take_token app]. rewrite C. reflexivity.
Qed.

Lemma lstrip_no_space (s : str) :
  Forall (fun c => py_isspace c = false) s -> PriceBefore.lstrip s = s.
Proof.
  intros H. destruct H as [| c s Hc Hs]; [reflexivity|].
  cbn [PriceBefore.lstrip]. rewrite Hc. reflexivity.
Qed.

Lemma py_strip_no_space (s : str) :
  Forall (fun c => py_isspace c = false) s -> PriceBefore.py_strip s = s.
Proof.
  intros H. unfold PriceBefore.py_strip.
  rewrite (lstrip_no_space H), lstrip_no_space, rev_involutive;
    [reflexivity|].
  apply Forall_rev. exact H.
Qed.

Section Brand.

Variable unicode_isalnum : Z -> bool.

(** Cleaning a word that has no white space keeps its word characters and
    hyphens, and the final [strip()] changes nothing. *)
Lemma clean_word (w : str) :
  Forall (fun c => py_isspace c = false) w ->
  PriceBefore.py_strip (PriceBefore.sub_non_word unicode_isalnum w) =
  keep_word_hyphen unicode_isalnum w.
Proof.
  intros H.
  assert (E : PriceBefore.sub_non_word unicode_isalnum w =
              keep_word_hyphen unicode_isalnum w).
  { unfold PriceBefore.sub_non_word, keep_word_hyphen.
    induction H as [| c w Hc Hw IH]; [reflexivity|].
    cbn [filter]. rewrite Hc, orb_false_r, IH. reflexivity. }
  rewrite E. apply py_strip_no_space.
  unfold keep_word_hyphen. apply Forall_forall. intros c Hin.
  apply filter_In in Hin. destruct Hin as [Hin _].
  rewrite Forall_forall in H. apply H. exact Hin.
Qed.

Lemma brand_of_title_token (t : str) :
  PriceBefore.or_default (PriceBefore.brand_of_title unicode_isalnum t)
    (u "Unknown Brand") =
  PriceBefore.or_default
    (Some (keep_word_hyphen unicode_isalnum (first_token t)))
    (u "Unknown Brand").
Proof.
  unfold PriceBefore.brand_of_title.
  pose proof (py_split_first_token t) as P.
  destruct (PriceBefore.py_split t) as [| w ws].
  - rewrite P. reflexivity.
  - subst w. rewrite clean_word; [reflexivity|].
    apply take_token_no_space.
Qed.

(** C8, as the code has it: the title is the one the selector cascade
    finds, or "Unknown Product"; the brand is the first
    white-space-delimited token of that title with every character
    removed that is not a word character (alphanumeric or underscore) or
    a hyphen, or "Unknown Brand" when no title is found or nothing is
    left of the token.  "Samsung Galaxy S23" gives "Samsung",
    "«Apple» iPhone" gives "Apple", and a page with no title gives the
    two placeholders. *)
Theorem extract_product_info_brand (page : PriceBefore.soup) :
  PriceBefore.info_title
    (PriceBefore.extract_product_info unicode_isalnum page) =
    PriceBefore.or_default (title_found page) (u "Unknown Product") /\
  PriceBefore.info_brand
    (PriceBefore.extract_product_info unicode_isalnum page) =
    match title_found page with
    | Some (c :: t) =>
        PriceBefore.or_default
          (Some (keep_word_hyphen unicode_isalnum (first_token (c :: t))))
          (u "Unknown Brand")
    | _ => u "Unknown Brand"
    end /\
  PriceBefore.extract_product_info unicode_isalnum
    (h1_page (u "Samsung Galaxy S23")) =
    {| PriceBefore.info_title := u "Samsung Galaxy S23";
       PriceBefore.info_brand := u "Samsung" |} /\
  PriceBefore.extract_product_info unicode_isalnum
    (h1_page guillemet_title) =
    {| PriceBefore.info_title := guillemet_title;
       PriceBefore.info_brand := u "Apple" |} /\
  PriceBefore.extract_product_info unicode_isalnum untitled_page =
    {| PriceBefore.info_title := u "Unknown Product";
       PriceBefore.info_brand := u "Unknown Brand" |}.
Proof.
  assert (T : forall pg,
             (if negb (PriceBefore.some_text
                         (PriceBefore.first_selected pg
                            PriceBefore.title_selectors))
              then match PriceBefore.og_title pg with
                   | Some content => Some (PriceBefore.py_strip content)
                   | None => PriceBefore.first_selected pg
                               PriceBefore.title_selectors
                   end
              else PriceBefore.first_selected pg
                     PriceBefore.title_selectors) = title_found pg).
  { intros pg. unfold title_found.
    destruct (PriceBefore.some_text _); reflexivity. }
  unfold PriceBefore.extract_product_info.
  cbn [PriceBefore.info_title PriceBefore.info_brand].
  rewrite T. split; [reflexivity|]. split.
  - destruct (title_found page) as [[| c t] |]; try reflexivity.
    apply brand_of_title_token.
  - repeat split; reflexivity.
Qed.

End Brand.

(** C8, as worded: for the title [-- Apple iPhone] the code gives the
    brand "--", the first token with its hyphens kept, where the first
    alphanumeric token with punctuation stripped is "Apple". *)
Lemma extract_product_info_keeps_hyphens :
  PriceBefore.info_brand
    (PriceBefore.extract_product_info (fun _ => false)
       (h1_page (u "-- Apple iPhone"))) = u "--" /\
  brand_as_worded (fun _ => false) (u "-- Apple iPhone") = u "Apple".
Proof.
  split; reflexivity.
Qed.

(** * The calendar *)

(** On every day from 2022-11-01 to 2025-08-09, [ord2ymd] gives a date
    whose ordinal, by [ymd2ord], is the day it came from. *)
Example ord2ymd_inverts_ymd2ord_over_the_range :
  forallb
    (fun i =>
       let o := 738460 + Z.of_nat i in
       let '(y, m, d) := Datetime.ord2ymd o in
       Datetime.ymd2ord y m d =? o)
    (seq 0 1013) = true.
Proof. vm_compute. reflexivity. Qed.

(** * Normalising, validating and saving together *)

Lemma has_key_nonempty (k : str) (d : list (str * pyval)) :
  has_key k d = true -> d <> [].
Proof. destruct d; [discriminate | discriminate]. Qed.

Lemma mapping_with_keys (k1 k2 : str) (d : list (str * pyval)) :
  has_key k1 d = true -> has_key k2 d = true -> mapping_with k1 k2 (PDict d).
Proof.
  intros H1 H2. exists d. rewrite <- !has_key_In. auto.
Qed.

(** The normalised form is the candidate itself when it is a mapping
    with 'labels' and 'data', and a fresh two-key mapping otherwise. *)
Lemma normalise_cases (lower : str -> str) (data : pyval) :
  (normalise lower data = data /\
   mapping_with (u "labels") (u "data") data) \/
  (exists a b,
     normalise lower data = PDict [(u "labels", a); (u "data", b)]).
Proof.
  unfold normalise.
  destruct data as [| b | n | m e | s | l | d];
    try (right; eexists; eexists; reflexivity).
  - right. unfold format_price_data.
    cbn [isinstance_dict isinstance_list py_iter bind].
    rewrite format_items_points. cbn [bind]. eexists. eexists. reflexivity.
  - unfold format_price_data.
    cbn [isinstance_dict py_in andM bind py_getitem_str].
    destruct (has_key (u "labels") d) eqn:L1;
      [destruct (has_key (u "data") d) eqn:L2|].
    + left. split; [reflexivity | apply mapping_with_keys; assumption].
    + right.
      destruct (has_key (u "dates") d) eqn:D1;
        [|eexists; eexists; reflexivity].
      destruct (has_key (u "prices") d) eqn:D2;
        [|eexists; eexists; reflexivity].
      destruct (has_key_lookup _ _ D1) as [v1 ->].
      destruct (has_key_lookup _ _ D2) as [v2 ->].
      eexists. eexists. reflexivity.
    + right.
      destruct (has_key (u "dates") d) eqn:D1;
        [|eexists; eexists; reflexivity].
      destruct (has_key (u "prices") d) eqn:D2;
        [|eexists; eexists; reflexivity].
      destruct (has_key_lookup _ _ D1) as [v1 ->].
      destruct (has_key_lookup _ _ D2) as [v2 ->].
      eexists. eexists. reflexivity.
Qed.

Lemma normalise_series (lower : str -> str) (data : pyval) :
  mapping_with (u "labels") (u "data") (normalise lower data).
Proof.
  destruct (normalise_cases lower data) as [[-> H] | [a [b ->]]].
  - exact H.
  - apply mapping_with_keys; reflexivity.
Qed.

Lemma format_series_unchanged (lower : str -> str) (v : pyval) :
  mapping_with (u "labels") (u "data") v ->
  format_price_data lower v = Ok v /\ validate_price_data v = Ok true.
Proof.
  intros H. split.
  - destruct H as [d [-> [H1 H2]]]. apply has_key_In in H1, H2.
    unfold format_price_data. cbn [isinstance_dict py_in andM bind].
    rewrite H1, H2. reflexivity.
  - rewrite validate_price_data_shape. f_equal.
    apply shape_ok_rules. left. exact H.
Qed.

(** X1: the normaliser is idempotent, and what it returns always passes
    the validator and has the keys 'labels' and 'data', whatever the
    candidate was, validated or not. *)
Theorem format_price_data_idempotent (lower : str -> str) (data : pyval) :
  exists r,
    format_price_data lower data = Ok r /\
    format_price_data lower r = Ok r /\
    validate_price_data r = Ok true /\
    mapping_with (u "labels") (u "data") r.
Proof.
  exists (normalise lower data).
  pose proof (normalise_series lower data) as H.
  destruct (format_series_unchanged lower H) as [F V].
  split; [apply format_price_data_total|].
  split; [exact F|]. split; [exact V | exact H].
Qed.

Lemma combine_fst_snd (A B : Type) (l : list (A * B)) :
  combine (map fst l) (map snd l) = l.
Proof.
  induction l as [| [a b] l IH]; [reflexivity|].
  cbn [map combine fst snd]. rewrite IH. reflexivity.
Qed.

Lemma record_point_short
    (pick : list str -> list (str * pyval) -> option pyval)
    (item : pyval) :
  (length (record_point pick item) <= 1)%nat.
Proof.
  unfold record_point. destruct item; cbn; try lia.
  destruct (pick date_keys d), (pick price_keys d); cbn; try lia.
  destruct (negb (is_none p) && negb (is_none p0)); cbn; lia.
Qed.

Lemma flat_map_short (A B : Type) (f : A -> list B) (l : list A) :
  (forall x, (length (f x) <= 1)%nat) ->
  (length (flat_map f l) <= length l)%nat.
Proof.
  intros H. induction l as [| x l IH]; [apply le_n|].
  cbn [flat_map]. rewrite length_app. cbn [length].
  specialize (H x). lia.
Qed.

Lemma csv_rows_formatted (labels values : list pyval) :
  csv_rows (formatted labels values) = Ok (combine labels values).
Proof. reflexivity. Qed.

(** X2: normalising a sequence gives a 'labels' array and a 'data' array
    of the same length, at most the length of the sequence, and the rows
    written from the result are the points of the records, in order: no
    label is ever left without its value. *)
Theorem format_price_data_sequence_aligned (lower : str -> str)
    (items : list pyval) :
  exists labels values,
    format_price_data lower (PList items) = Ok (formatted labels values) /\
    length labels = length values /\
    (length labels <= length items)%nat /\
    csv_rows (formatted labels values) =
      Ok (flat_map (record_point (last_match lower)) items) /\
    labels = map fst (flat_map (record_point (last_match lower)) items).
Proof.
  exists (map fst (flat_map (record_point (last_match lower)) items)),
         (map snd (flat_map (record_point (last_match lower)) items)).
  split; [|split; [|split; [|split]]].
  - unfold format_price_data.
    cbn [isinstance_dict isinstance_list py_iter bind].
    rewrite format_items_points. reflexivity.
  - rewrite !length_map. reflexivity.
  - rewrite length_map. apply flat_map_short. apply record_point_short.
  - rewrite csv_rows_formatted, combine_fst_snd. reflexivity.
  - reflexivity.
Qed.

(** Saving a validated candidate raises nothing, and succeeds only for a
    mapping with 'labels' and 'data' when the file can be written. *)
Lemma save_to_csv_shape (sink_ok : bool) (data : pyval) :
  shape_ok data = true ->
  exists b,
    save_to_csv sink_ok data = Ok b /\
    (b = true ->
     sink_ok = true /\ mapping_with (u "labels") (u "data") data).
Proof.
  intros S. destruct data as [| b | n | m e | s | l | d];
    try discriminate S.
  - destruct l as [| first rest]; [discriminate S|].
    unfold save_to_csv. cbn [truthy negb py_in bind].
    destruct (existsb (is_pstr (u "labels")) (first :: rest));
      cbn [negb bind]; [|exists false; split; [reflexivity | discriminate]].
    destruct (existsb (is_pstr (u "data")) (first :: rest));
      cbn [negb bind]; [|exists false; split; [reflexivity | discriminate]].
    exists false. split; [destruct sink_ok; reflexivity | discriminate].
  - destruct d as [| kv d']; [discriminate S|].
    unfold save_to_csv. cbn [truthy negb py_in bind].
    destruct (has_key (u "labels") (kv :: d')) eqn:L;
      cbn [negb bind]; [|exists false; split; [reflexivity | discriminate]].
    destruct (has_key (u "data") (kv :: d')) eqn:D;
      cbn [negb bind]; [|exists false; split; [reflexivity | discriminate]].
    destruct sink_ok; cbn [catch].
    + destruct (csv_rows (PDict (kv :: d'))); cbn [bind catch].
      * exists true. split; [reflexivity|]. intros _.
        split; [reflexivity | apply mapping_with_keys; assumption].
      * exists false. split; [reflexivity | discriminate].
    + exists false. split; [reflexivity | discriminate].
Qed.

(** X3: saving a candidate that passed the validator raises nothing; it
    reports success only when the file can be written and the candidate
    is a mapping with the keys 'labels' and 'data'.  A validated
    dates/prices or x/y mapping, or a validated sequence of records, is
    never written unless it was normalised first. *)
Theorem save_to_csv_validated (sink_ok : bool) (data : pyval) :
  validate_price_data data = Ok true ->
  exists b,
    save_to_csv sink_ok data = Ok b /\
    (b = true ->
     sink_ok = true /\ mapping_with (u "labels") (u "data") data).
Proof.
  rewrite validate_price_data_shape. intros H.
  apply save_to_csv_shape. congruence.
Qed.

Lemma save_to_csv_validated_witness :
  exists b,
    save_to_csv true
      (PDict [(u "dates", PList [PStr (u "d1")]);
              (u "prices", PList [PInt 5])]) = Ok b /\
    (b = true ->
     true = true /\
     mapping_with (u "labels") (u "data")
       (PDict [(u "dates", PList [PStr (u "d1")]);
               (u "prices", PList [PInt 5])])).
Proof.
  apply (@save_to_csv_validated true
           (PDict [(u "dates", PList [PStr (u "d1")]);
                   (u "prices", PList [PInt 5])])).
  reflexivity.
Defined.

(** Whatever the methods give, the loop of [scrape_price_history]
    returns [None] or a mapping with 'labels' and 'data'. *)
Lemma run_methods_series (methods : list (bool * exc pyval)) :
  none_or_series (run_methods methods).
Proof.
  induction methods as [| [sink_ok method_func] rest IH];
    [left; reflexivity|].
  cbn [run_methods]. unfold try_method.
  destruct method_func as [data | e]; cbn [bind catch]; [|exact IH].
  destruct (truthy data); [|exact IH].
  rewrite validate_price_data_shape. cbn [bind].
  destruct (shape_ok data) eqn:S; [|exact IH].
  destruct (save_to_csv_shape sink_ok data S) as [b [E Hb]].
  rewrite E. cbn [bind]. destruct b; [|exact IH].
  cbn [catch]. right. apply Hb. reflexivity.
Qed.

Section Pipeline.

Variable unicode_lower : str -> str.
Variable re_findall : string -> list re_flag -> str -> list str.
Variable json_loads : str -> exc pyval.
Variable py_hash : str -> Z.
Variable float_price : Z -> Z -> Z.
Variable session_get : str -> exc (Z * exc pyval).

(** X4: with enough fuel for the generator, [scrape_price_history]
    returns either [None] or a mapping that has the keys 'labels' and
    'data', passes the validator and is its own normal form, whatever the
    browser, the page and the file system do; it never returns a sequence
    or a dates/prices mapping. *)
Theorem scrape_price_history_result (fuel : nat) (selenium : pyval)
    (page : exc (list (option str))) (sink_ok : nat -> bool) :
  (145 <= fuel)%nat ->
  exists v,
    scrape_price_history unicode_lower re_findall json_loads py_hash
      float_price fuel selenium page sink_ok = Some v /\
    none_or_series v /\
    (v <> PNone ->
     validate_price_data v = Ok true /\
     format_price_data unicode_lower v = Ok v).
Proof.
  intros Hf. unfold scrape_price_history.
  rewrite (generate_sample_data_series py_hash float_price (fuel := fuel))
    by exact Hf.
  eexists. split; [reflexivity|].
  match goal with |- none_or_series ?v /\ _ =>
    pose proof (run_methods_series
                  [ (sink_ok 0%nat, Ok selenium);
                    (sink_ok 1%nat,
                     extract_from_page_source unicode_lower re_findall
                       json_loads page);
                    (sink_ok 2%nat,
                     Ok (weekly_series py_hash float_price)) ]) as R;
    generalize dependent v
  end.
  intros v R. split; [exact R|].
  intros N. destruct R as [E | M]; [contradiction|].
  destruct (format_series_unchanged unicode_lower M) as [F V]. auto.
Qed.

(** The scan of the log, entry by entry. *)
Lemma scan_logs_cons (log : pyval) (rest : list pyval) :
  scan_logs unicode_lower json_loads session_get (log :: rest) =
  (c <- entry_candidate unicode_lower json_loads log ;;
   match c with
   | Some url =>
       r <- catch (fetch_candidate unicode_lower session_get url)
                  (Ok None) ;;
       match r with
       | Some v => Ok (Some v)
       | None => scan_logs unicode_lower json_loads session_get rest
       end
   | None => scan_logs unicode_lower json_loads session_get rest
   end).
Proof.
  cbn [scan_logs]. unfold entry_candidate.
  destruct (py_getitem_str log (u "message")) as [raw|]; cbn [bind];
    [|reflexivity].
  destruct (loads_value json_loads raw) as [message|]; cbn [bind];
    [|reflexivity].
  destruct (py_getitem_str message (u "message")) as [inner|]; cbn [bind];
    [|reflexivity].
  destruct (py_getitem_str inner (u "method")) as [method|]; cbn [bind];
    [|reflexivity].
  destruct (is_pstr (u "Network.responseReceived") method); [|reflexivity].
  destruct (py_getitem_str inner (u "params")) as [params|]; cbn [bind];
    [|reflexivity].
  destruct (py_getitem_str params (u "response")) as [response|];
    cbn [bind]; [|reflexivity].
  destruct (py_getitem_str response (u "url")) as [url|]; cbn [bind];
    [|reflexivity].
  destruct (url_has_keyword unicode_lower url) as [wanted|]; cbn [bind];
    [|reflexivity].
  destruct wanted; reflexivity.
Qed.

(** What a request returns is a normalised series. *)
Lemma fetch_candidate_series (url v : pyval) :
  catch (fetch_candidate unicode_lower session_get url) (Ok None)
    = Ok (Some v) ->
  mapping_with (u "labels") (u "data") v.
Proof.
  unfold fetch_candidate. destruct url; try discriminate.
  destruct (session_get s) as [[status body] |]; cbn [bind catch fst snd];
    [|discriminate].
  destruct (status =? 200); [|discriminate].
  destruct body as [data |]; cbn [bind catch]; [|discriminate].
  rewrite validate_price_data_shape. cbn [bind].
  destruct (shape_ok data); [|discriminate].
  rewrite format_price_data_total. cbn [bind catch].
  intros H. inversion H. apply normalise_series.
Qed.

Lemma scan_logs_series (logs : list pyval) (v : pyval) :
  scan_logs unicode_lower json_loads session_get logs = Ok (Some v) ->
  mapping_with (u "labels") (u "data") v.
Proof.
  induction logs as [| log rest IH]; [discriminate|].
  rewrite scan_logs_cons.
  destruct (entry_candidate unicode_lower json_loads log) as [[url|]|];
    cbn [bind]; [| exact IH | discriminate].
  destruct (catch (fetch_candidate unicode_lower session_get url) (Ok None))
    as [[w|]|] eqn:C; cbn [bind]; [| exact IH | discriminate].
  intros H. inversion H; subst w. eapply fetch_candidate_series. exact C.
Qed.

Lemma extract_from_network_logs_series (logs : exc (list pyval)) :
  exists v,
    extract_from_network_logs unicode_lower json_loads session_get logs
      = Ok v /\
    none_or_series v.
Proof.
  unfold extract_from_network_logs.
  destruct logs as [entries |]; cbn [bind catch];
    [| exists PNone; split; [reflexivity | left; reflexivity]].
  destruct (scan_logs unicode_lower json_loads session_get entries)
    as [[v|]|] eqn:S; cbn [bind catch].
  - exists v. split; [reflexivity|]. right.
    eapply scan_logs_series. exact S.
  - exists PNone. split; [reflexivity | left; reflexivity].
  - exists PNone. split; [reflexivity | left; reflexivity].
Qed.

(** X5: [extract_from_network_logs] raises nothing, whatever the log
    holds and whatever the requests do, and returns either [None] or a
    normalised series: a mapping with 'labels' and 'data' that passes
    the validator. *)
Theorem extract_from_network_logs_result (logs : exc (list pyval)) :
  exists v,
    extract_from_network_logs unicode_lower json_loads session_get logs
      = Ok v /\
    none_or_series v /\
    (v <> PNone -> validate_price_data v = Ok true).
Proof.
  destruct (extract_from_network_logs_series logs) as [v [E S]].
  exists v. split; [exact E|]. split; [exact S|].
  intros N. destruct S as [-> | M]; [contradiction|].
  apply (format_series_unchanged unicode_lower M).
Qed.

(** X6: in the scan of the log the two kinds of failure are not treated
    alike.  An entry that cannot be decoded ends the scan with [None],
    whatever follows it; a candidate URL whose request fails, answers
    with another status than 200, or gives a body that does not decode
    or validate, is skipped and the scan goes on with the next entry. *)
Theorem extract_from_network_logs_entry (log : pyval)
    (rest : list pyval) :
  extract_from_network_logs unicode_lower json_loads session_get
    (Ok (log :: rest)) =
  match entry_candidate unicode_lower json_loads log with
  | Raise _ => Ok PNone
  | Ok None =>
      extract_from_network_logs unicode_lower json_loads session_get
        (Ok rest)
  | Ok (Some url) =>
      match catch (fetch_candidate unicode_lower session_get url)
                  (Ok None) with
      | Ok (Some v) => Ok v
      | _ =>
          extract_from_network_logs unicode_lower json_loads session_get
            (Ok rest)
      end
  end.
Proof.
  unfold extract_from_network_logs. cbn [bind].
  rewrite scan_logs_cons.
  destruct (entry_candidate unicode_lower json_loads log) as [[url|]|];
    cbn [bind]; try reflexivity.
  unfold catch at 1 3.
  destruct (fetch_candidate unicode_lower session_get url) as [[v|]|];
    cbn [bind catch]; reflexivity.
Qed.

(** X7: [extract_chart_data_selenium] raises nothing and returns [None]
    or a mapping.  A truthy probe result that is not a mapping, such as
    a sequence of records the validator would accept, is lost: the
    function returns [None] without consulting the network log. *)
Theorem extract_chart_data_selenium_result (b : chart_browser) :
  exists v,
    extract_chart_data_selenium unicode_lower json_loads session_get b
      = Ok v /\
    none_or_mapping v /\
    (forall c,
       canvas_load b = Ok tt -> probe b = Ok c ->
       truthy c = true -> isinstance_dict c = false -> v = PNone).
Proof.
  unfold extract_chart_data_selenium.
  destruct (canvas_load b) as [[] |]; cbn [bind catch];
    [| exists PNone; split; [reflexivity|];
       split; [left; reflexivity | intros; reflexivity]].
  destruct (probe b) as [c |]; cbn [bind catch];
    [| exists PNone; split; [reflexivity|];
       split; [left; reflexivity | intros; reflexivity]].
  destruct (truthy c) eqn:T.
  - destruct c as [| x | n | m e | s | l | d];
      try (exists PNone; split; [reflexivity|];
           split; [left; reflexivity | intros; reflexivity]).
    cbn [py_get_default bind].
    destruct (py_len _) as [n |]; cbn [bind catch].
    + exists (PDict d). split; [reflexivity|].
      split; [right; eauto|].
      intros c _ E _ D. inversion E; subst c. discriminate D.
    + exists PNone. split; [reflexivity|].
      split; [left; reflexivity | intros; reflexivity].
  - destruct (extract_from_network_logs_series (performance_log b))
      as [v [E S]].
    rewrite E. cbn [catch]. exists v. split; [reflexivity|].
    split.
    + destruct S as [-> | [d [-> _]]]; [left; reflexivity | right; eauto].
    + intros c' _ Ec Tc _. inversion Ec; subst c'. congruence.
Qed.

End Pipeline.

Lemma scrape_price_history_result_witness :
  exists v,
    scrape_price_history (fun s => s) (fun _ _ _ => [])
      (fun _ => Raise JSONDecodeError) (fun _ => 0)
      (fun days _ => 2999 + days) 145 PNone (Raise IOError)
      (fun _ => true) = Some v /\
    none_or_series v /\
    (v <> PNone ->
     validate_price_data v = Ok true /\
     format_price_data (fun s => s) v = Ok v).
Proof.
  apply (@scrape_price_history_result (fun s => s) (fun _ _ _ => [])
           (fun _ => Raise JSONDecodeError) (fun _ => 0)
           (fun days _ => 2999 + days) 145 PNone (Raise IOError)
           (fun _ => true)).
  apply le_n.
Defined.

Lemma extract_chart_data_selenium_result_witness :
  exists v,
    extract_chart_data_selenium (fun s => s)
      (fun _ => Raise JSONDecodeError) (fun _ => Raise IOError)
      sequence_browser = Ok v /\
    v = PNone.
Proof.
  destruct (@extract_chart_data_selenium_result (fun s => s)
              (fun _ => Raise JSONDecodeError) (fun _ => Raise IOError)
              sequence_browser) as [v [E [_ H]]].
  exists v. split; [exact E|].
  apply (H (PList [PDict [ (u "date", PStr (u "d1"));
                           (u "price", PInt 5) ]]));
    reflexivity.
Defined.

(** * Data embedded in the page *)

Lemma weeks_after_start (i : Z) :
  0 <= i ->
  Datetime.fromordinal (Datetime.toordinal PriceBefore.start_date + i * 7) =
  weeks_after PriceBefore.start_date (Z.to_nat i).
Proof.
  intros H. unfold weeks_after. f_equal. rewrite Z2Nat.id by exact H. lia.
Qed.

(** The dating loop appends one weekly entry per value, and can only
    fail beyond the last day of the calendar, 416229 weeks on. *)
Lemma append_points_spec (items : list pyval) :
  forall (i : Z) (acc : list pyval),
    0 <= i ->
    exists pts,
      fst (PriceBefore.append_points i items acc) = acc ++ pts /\
      Forall weekly_point pts /\
      match snd (PriceBefore.append_points i items acc) with
      | Ok _ => length pts = length items
      | Raise _ => 416228 < i + Z.of_nat (length pts)
      end.
Proof.
  induction items as [| price rest IH]; intros i acc Hi.
  - exists []. cbn. rewrite app_nil_r. auto.
  - cbn [PriceBefore.append_points]. unfold Datetime.add_days.
    assert (S : Datetime.toordinal PriceBefore.start_date = 738460)
      by reflexivity.
    destruct ((0 <? Datetime.toordinal PriceBefore.start_date + i * 7) &&
              (Datetime.toordinal PriceBefore.start_date + i * 7
                 <=? Datetime.MAXORDINAL)) eqn:C.
    + destruct (IH (i + 1)
                  (acc ++
                   [PriceBefore.point
                      (PStr (Datetime.strftime_ymd
                               (Datetime.fromordinal
                                  (Datetime.toordinal PriceBefore.start_date
                                   + i * 7)))) price]))
        as [pts [E [F L]]]; [lia|].
      eexists (_ :: pts). rewrite E, <- app_assoc. split; [reflexivity|].
      split.
      * constructor; [|exact F].
        rewrite weeks_after_start by exact Hi. eexists. eexists. reflexivity.
      * destruct (snd (PriceBefore.append_points _ rest _));
          cbn [length]; lia.
    + exists []. cbn [fst snd length]. rewrite app_nil_r.
      split; [reflexivity|]. split; [constructor|].
      apply andb_false_iff in C. unfold Datetime.MAXORDINAL in C.
      destruct C as [C | C]; [apply Z.ltb_ge in C | apply Z.leb_gt in C];
        lia.
Qed.

Lemma py_len_iter (v : pyval) (n : Z) (items : list pyval) :
  py_len v = Ok n -> py_iter v = Ok items -> n = Z.of_nat (length items).
Proof.
  destruct v; cbn; try discriminate; intros H1 H2;
    inversion H1; inversion H2; subst; rewrite ?length_map; reflexivity.
Qed.

Lemma embedded_series_app (acc pts : list pyval) :
  embedded_series acc -> Forall weekly_point pts ->
  (10 < length pts)%nat ->
  embedded_series (acc ++ pts).
Proof.
  intros [_ F] Fp L. split.
  - right. rewrite length_app. lia.
  - apply Forall_app. auto.
Qed.

Section HtmlFacts.

Variable re_findall : string -> list re_flag -> str -> list str.
Variable json_loads : str -> exc pyval.

Lemma html_matches_series (matches : list str) (acc : list pyval) :
  embedded_series acc ->
  embedded_series
    (fst (PriceBefore.html_matches json_loads matches acc)).
Proof.
  intros I. induction matches as [| m rest IH]; [exact I|].
  cbn [PriceBefore.html_matches].
  destruct (str_contains (u "[") m && str_contains (u "]") m);
    [|exact IH].
  destruct (json_loads (u "[" ++ m ++ u "]")) as [data |]; [|exact I].
  destruct (py_len data) as [n |] eqn:Ln; [|exact I].
  destruct (10 <? n) eqn:C; [|exact IH].
  destruct (py_iter data) as [items |] eqn:It; [|exact I].
  apply Z.ltb_lt in C. pose proof (py_len_iter _ Ln It) as N.
  destruct (@append_points_spec items 0 acc) as [pts [E [F L]]]; [lia|].
  destruct (PriceBefore.append_points 0 items acc) as [acc' r].
  cbn [fst snd] in E, L. subst acc'.
  destruct r; cbn [fst]; apply embedded_series_app; auto; lia.
Qed.

Lemma html_patterns_series (script : str) (ps : list string) :
  forall acc,
    embedded_series acc ->
    embedded_series
      (fst (PriceBefore.html_patterns_loop re_findall json_loads
              script ps acc)).
Proof.
  induction ps as [| pattern rest IH]; intros acc I; [exact I|].
  cbn [PriceBefore.html_patterns_loop].
  destruct (re_findall pattern [DOTALL] script) as [| m ms];
    [apply IH; exact I|].
  pose proof (html_matches_series (m :: ms) I) as H.
  destruct (PriceBefore.html_matches json_loads (m :: ms) acc)
    as [acc' [[|] |]]; cbn [fst] in H |- *; try (apply IH; exact H).
  exact H.
Qed.

Lemma html_scripts_series (scripts : list str) :
  forall acc,
    embedded_series acc ->
    embedded_series
      (PriceBefore.html_scripts_loop re_findall json_loads scripts acc).
Proof.
  induction scripts as [| script rest IH]; intros acc I; [exact I|].
  cbn [PriceBefore.html_scripts_loop].
  pose proof (html_patterns_series script PriceBefore.html_patterns I) as H.
  destruct (PriceBefore.html_patterns_loop re_findall json_loads script
              PriceBefore.html_patterns acc) as [acc' [|]];
    cbn [fst] in H; [exact H | apply IH; exact H].
Qed.

(** X8: whatever the page holds, [extract_price_from_html] returns either
    no entry or more than ten, and every entry it returns is dated a
    whole number of weeks after 2022-11-01: the dates are made up from
    the position of the value, never read from the page. *)
Theorem extract_price_from_html_series (html_content : str) :
  let l :=
    PriceBefore.extract_price_from_html re_findall json_loads
      html_content in
  (l = [] \/ (10 < length l)%nat) /\ Forall weekly_point l.
Proof.
  apply html_scripts_series. split; [left; reflexivity | constructor].
Qed.

End HtmlFacts.

(** * The synthetic series *)

Lemma sample_price_loop_points (r : PriceBefore.rng) :
  randint_in_range r ->
  forall (fuel : nat) (o : Z) (k : nat) (acc : list pyval),
    738460 <= o ->
    (Z.to_nat (739466 - o) < fuel)%nat ->
    exists l,
      PriceBefore.sample_price_loop r fuel k (Datetime.fromordinal o) acc
        = Some (Ok (acc ++ l)) /\
      Forall synthetic_point l /\
      Z.of_nat (length l) <= Z.max 0 (739466 - o) /\
      739466 - o <= 7 * Z.of_nat (length l) /\
      (o <= 739465 ->
       exists p rest,
         l = PriceBefore.point
               (PStr (Datetime.strftime_ymd (Datetime.fromordinal o)))
               (PInt p) :: rest).
Proof.
  intros Hr.
  assert (E : Datetime.toordinal PriceBefore.end_date = 739465)
    by reflexivity.
  induction fuel as [| fuel IH]; intros o k acc Hlo Hf; [lia|].
  cbn [PriceBefore.sample_price_loop]. unfold Datetime.le.
  cbn [Datetime.toordinal]. rewrite E.
  destruct (o <=? 739465) eqn:C.
  - apply Z.leb_le in C. unfold Datetime.add_days.
    cbn [Datetime.toordinal]. pose proof (Hr k) as Hk.
    replace ((0 <? o + PriceBefore.randint_1_7 r k) &&
             (o + PriceBefore.randint_1_7 r k <=? Datetime.MAXORDINAL))
      with true
      by (symmetry; apply andb_true_iff; unfold Datetime.MAXORDINAL;
          split; [apply Z.ltb_lt | apply Z.leb_le]; lia).
    destruct (IH (o + PriceBefore.randint_1_7 r k) (S k)
                (acc ++
                 [PriceBefore.point
                    (PStr (Datetime.strftime_ymd (Datetime.fromordinal o)))
                    (PInt (Z.max 100
                       (PriceBefore.priced r k
                          (Datetime.days_between (Datetime.fromordinal o)
                             PriceBefore.start_date))))]))
      as [l [El [Fl [Lu [Ll _]]]]]; [lia | lia |].
    rewrite El, <- app_assoc. eexists. split; [reflexivity|].
    split; [|split; [|split]].
    + constructor; [|exact Fl].
      exists o. eexists. split; [lia|]. split; [|reflexivity]. lia.
    + cbn [length app]. lia.
    + cbn [length app]. lia.
    + intros _. eexists. eexists. reflexivity.
  - apply Z.leb_gt in C. exists []. rewrite app_nil_r.
    split; [reflexivity|]. split; [constructor|].
    cbn [length]. repeat split; try lia.
Qed.

(** X9: for every run of the random generator, with enough fuel
    [generate_sample_price_data] returns between 144 and 1006 entries;
    the first is dated 2022-11-01, every date lies between 2022-11-01 and
    2025-08-02, and every price is an integer of at least 100. *)
Theorem generate_sample_price_data_series (r : PriceBefore.rng)
    (fuel : nat) :
  randint_in_range r ->
  (1007 <= fuel)%nat ->
  exists l p rest,
    PriceBefore.generate_sample_price_data r fuel = Some (Ok l) /\
    l = PriceBefore.point (PStr (u "2022-11-01")) (PInt p) :: rest /\
    (144 <= length l <= 1006)%nat /\
    Forall synthetic_point l.
Proof.
  intros Hr Hf.
  destruct (@sample_price_loop_points r Hr fuel 738460 0%nat [])
    as [l [El [Fl [Lu [Ll Hd]]]]]; [lia | simpl; lia |].
  destruct Hd as [p [rest Ep]]; [lia|].
  exists l, p, rest. split; [exact El|].
  split; [exact Ep|]. split; [lia | exact Fl].
Qed.

Lemma generate_sample_price_data_series_witness :
  exists l p rest,
    PriceBefore.generate_sample_price_data
      (PriceBefore.random dead_world) 1007 = Some (Ok l) /\
    l = PriceBefore.point (PStr (u "2022-11-01")) (PInt p) :: rest /\
    (144 <= length l <= 1006)%nat /\
    Forall synthetic_point l.
Proof.
  apply (@generate_sample_price_data_series
           (PriceBefore.random dead_world) 1007).
  - intros k. simpl. lia.
  - apply le_n.
Defined.

(** * Records and the output file *)

Lemma weekly_point_is_point (v : pyval) : weekly_point v -> is_point v.
Proof. intros [i [p ->]]. eexists. eexists. reflexivity. Qed.

Lemma synthetic_point_is_point (v : pyval) :
  synthetic_point v -> is_point v.
Proof. intros [o [p [_ [_ ->]]]]. eexists. eexists. reflexivity. Qed.

Lemma truthy_len (v : pyval) (n : Z) :
  truthy v = true -> py_len v = Ok n -> 0 < n.
Proof.
  destruct v as [| b | k | m e | s | l | d]; cbn; try discriminate;
    intros T H; inversion H; subst.
  - destruct s; [discriminate T | cbn [length]; lia].
  - destruct l; [discriminate T | cbn [length]; lia].
  - destruct d; [discriminate T | cbn [length]; lia].
Qed.

Lemma pair_loop_points (labels prices : pyval) (idx : list Z) :
  forall acc l,
    PriceBefore.pair_loop labels prices idx acc = Ok l ->
    exists l', l = acc ++ l' /\ Forall is_point l'.
Proof.
  induction idx as [| i rest IH]; intros acc l H.
  - cbn in H. inversion H. exists []. rewrite app_nil_r. auto.
  - cbn [PriceBefore.pair_loop] in H.
    destruct (py_len prices) as [m |]; cbn [bind] in H; [|discriminate H].
    destruct (i <? m).
    + destruct (py_getitem_int labels i) as [x |]; cbn [bind] in H;
        [|discriminate H].
      destruct (py_getitem_int prices i) as [y |]; cbn [bind] in H;
        [|discriminate H].
      destruct (IH _ _ H) as [l' [-> F]].
      exists (PriceBefore.point x y :: l'). rewrite <- app_assoc.
      split; [reflexivity|]. constructor; [|exact F].
      eexists. eexists. reflexivity.
    + apply IH. exact H.
Qed.

(** The browser path assigns a series only when it has at least one
    entry, and only date/price entries. *)
Lemma chart_points_points (chart_data : pyval) (l : list pyval) :
  PriceBefore.chart_points chart_data = Ok (Some l) ->
  l <> [] /\ Forall is_point l.
Proof.
  unfold PriceBefore.chart_points.
  destruct (truthy chart_data); cbn [bind]; [|discriminate].
  destruct chart_data as [| b | k | m e | s | ls | d];
    cbn [PriceBefore.py_get bind]; try discriminate.
  cbn [py_getitem_str].
  destruct (lookup (u "labels") d) as [labels |];
    [|cbn [truthy bind]; discriminate].
  destruct (truthy labels) eqn:Tl; cbn [bind]; [|discriminate].
  destruct (lookup (u "data") d) as [prices |];
    [|cbn [truthy bind]; discriminate].
  destruct (truthy prices) eqn:Tp; cbn [bind]; [|discriminate].
  destruct (py_len labels) as [n |] eqn:Ln; cbn [bind]; [|discriminate].
  pose proof (truthy_len _ Tl Ln) as Hn.
  unfold PriceBefore.py_range.
  destruct (Z.to_nat n) as [| k] eqn:Ek; [lia|].
  cbn [seq map PriceBefore.pair_loop].
  destruct (py_len prices) as [m |] eqn:Lp; cbn [bind]; [|discriminate].
  pose proof (truthy_len _ Tp Lp) as Hm.
  replace (Z.of_nat 0 <? m) with true by (symmetry; apply Z.ltb_lt; lia).
  destruct (py_getitem_int labels (Z.of_nat 0)) as [x |]; cbn [bind];
    [|discriminate].
  destruct (py_getitem_int prices (Z.of_nat 0)) as [y |]; cbn [bind];
    [|discriminate].
  destruct (PriceBefore.pair_loop labels prices
              (map Z.of_nat (seq 1 k)) ([] ++ [PriceBefore.point x y]))
    as [r |] eqn:P; cbn [bind]; [|discriminate].
  intros H. inversion H; subst r.
  destruct (pair_loop_points _ _ _ _ P) as [l' [-> F]].
  split; [discriminate|].
  apply Forall_app. split; [|exact F].
  constructor; [|constructor]. eexists. eexists. reflexivity.
Qed.

Section RecordFacts.

Variable unicode_isalnum : Z -> bool.
Variable re_findall : string -> list re_flag -> str -> list str.
Variable json_loads : str -> exc pyval.

Lemma method_requests_price_data (w : PriceBefore.world)
    (pd0 : PriceBefore.product_data) :
  PriceBefore.price_data pd0 = [] ->
  let r := PriceBefore.method_requests unicode_isalnum re_findall
             json_loads w pd0 in
  (snd r = true -> writable_record (fst r)) /\
  (snd r = false -> PriceBefore.price_data (fst r) = []).
Proof.
  intros E0. unfold PriceBefore.method_requests.
  destruct (PriceBefore.http_get w) as [[status text] |];
    [| cbn; split; [discriminate | auto]].
  destruct (status =? 200); [| cbn; split; [discriminate | auto]].
  destruct (PriceBefore.parse_html w text) as [page |];
    [| cbn; split; [discriminate | auto]].
  pose proof (@html_scripts_series re_findall json_loads
                (re_findall PriceBefore.script_pattern
                   [DOTALL; IGNORECASE] text) []
                (conj (or_introl eq_refl) (Forall_nil _))) as [_ F].
  fold (PriceBefore.extract_price_from_html re_findall json_loads text)
    in F.
  destruct (PriceBefore.extract_price_from_html re_findall json_loads text)
    as [| x l]; cbn [fst snd]; split; try discriminate; auto.
  intros _. split; [discriminate|].
  cbn [PriceBefore.set_price_data PriceBefore.price_data].
  apply (Forall_impl _ weekly_point_is_point). exact F.
Qed.

Lemma selenium_title_price_data (b : PriceBefore.browser)
    (pd : PriceBefore.product_data) :
  PriceBefore.price_data
    (PriceBefore.selenium_title unicode_isalnum b pd) =
  PriceBefore.price_data pd.
Proof.
  unfold PriceBefore.selenium_title.
  destruct (PriceBefore.h1_text b); [|reflexivity].
  destruct (PriceBefore.py_split _); reflexivity.
Qed.

Lemma method_selenium_price_data (w : PriceBefore.world)
    (pd : PriceBefore.product_data) :
  PriceBefore.price_data pd = [] ->
  let pd2 := PriceBefore.method_selenium unicode_isalnum w pd in
  PriceBefore.price_data pd2 = [] \/ writable_record pd2.
Proof.
  intros E0. unfold PriceBefore.method_selenium.
  destruct (PriceBefore.driver w) as [b |]; [|left; exact E0].
  destruct (PriceBefore.page_load b); [|left; exact E0].
  destruct (PriceBefore.script_result b) as [chart_data |]; cbn [bind];
    [| left; rewrite selenium_title_price_data; exact E0].
  destruct (PriceBefore.chart_points chart_data) as [[l |] |] eqn:C;
    try (left; rewrite selenium_title_price_data; exact E0).
  right. apply chart_points_points in C. exact C.
Qed.

(** Every URL gives a record that can be written. *)
Lemma extract_chart_data_advanced_writable (w : PriceBefore.world)
    (fuel : nat) :
  randint_in_range (PriceBefore.random w) ->
  (1007 <= fuel)%nat ->
  exists pd,
    PriceBefore.extract_chart_data_advanced unicode_isalnum re_findall
      json_loads fuel w = Some (Ok pd) /\
    writable_record pd.
Proof.
  intros Hr Hf. unfold PriceBefore.extract_chart_data_advanced.
  pose proof (@method_requests_price_data w
                PriceBefore.initial_product_data eq_refl) as [M1 M2].
  destruct (PriceBefore.method_requests unicode_isalnum re_findall
              json_loads w PriceBefore.initial_product_data)
    as [pd [|]]; cbn [fst snd] in M1, M2.
  - exists pd. split; [reflexivity | apply M1; reflexivity].
  - pose proof (@method_selenium_price_data w pd (M2 eq_refl)) as M3.
    cbv zeta in M3.
    destruct (PriceBefore.price_data
                (PriceBefore.method_selenium unicode_isalnum w pd))
      as [| x l] eqn:P.
    + destruct (@sample_price_loop_points (PriceBefore.random w) Hr fuel
                  738460 0%nat [])
        as [s [Es [Fs [_ [Ls _]]]]]; [lia | simpl; lia |].
      unfold PriceBefore.generate_sample_price_data.
      change PriceBefore.start_date with (Datetime.fromordinal 738460).
      rewrite Es. eexists. split; [reflexivity|].
      cbn [app PriceBefore.set_price_data PriceBefore.price_data].
      split.
      * destruct s; [cbn [length] in Ls; lia | discriminate].
      * apply (Forall_impl _ synthetic_point_is_point). exact Fs.
    + eexists. split; [reflexivity|].
      destruct M3 as [M3 | M3]; [discriminate M3 | exact M3].
Qed.

End RecordFacts.

Lemma csv_row_point (t b : str) (d p : pyval) :
  PriceBefore.csv_row t b (PriceBefore.point d p) =
  Ok [PStr t; PStr b; d; p].
Proof. reflexivity. Qed.

Lemma write_entries_points (t b : str) (entries : list pyval) :
  Forall is_point entries ->
  forall written,
    PriceBefore.write_entries t b entries written =
    (written ++ map (entry_row t b) entries, Ok tt).
Proof.
  induction 1 as [| entry rest [d [p ->]] _ IH]; intros written.
  - cbn. rewrite app_nil_r. reflexivity.
  - cbn [PriceBefore.write_entries map]. unfold entry_row at 1.
    rewrite csv_row_point, IH, <- app_assoc. reflexivity.
Qed.

Lemma write_products_points (all : list PriceBefore.product_data) :
  Forall (fun pd => Forall is_point (PriceBefore.price_data pd)) all ->
  forall written,
    PriceBefore.write_products all written =
    (written ++ flat_map product_rows all, Ok tt).
Proof.
  induction 1 as [| pd rest Hpd _ IH]; intros written.
  - cbn. rewrite app_nil_r. reflexivity.
  - cbn [PriceBefore.write_products flat_map].
    rewrite (write_entries_points _ _ Hpd), IH, <- app_assoc.
    reflexivity.
Qed.

Lemma entry_row_point_length (t b : str) (entry : pyval) :
  is_point entry -> length (entry_row t b entry) = 4%nat.
Proof. intros [d [p ->]]. reflexivity. Qed.

(** An entry that has the keys 'date' and 'price', in any order and
    among any others, gives a row. *)
Lemma csv_row_dated (t b : str) (entry : pyval) :
  mapping_with (u "date") (u "price") entry ->
  exists d dv pv,
    entry = PDict d /\
    lookup (u "date") d = Some dv /\
    lookup (u "price") d = Some pv /\
    PriceBefore.csv_row t b entry = Ok [PStr t; PStr b; dv; pv].
Proof.
  intros [d [-> [H1 H2]]]. apply has_key_In in H1, H2.
  destruct (has_key_lookup _ _ H1) as [dv Ed].
  destruct (has_key_lookup _ _ H2) as [pv Ep].
  exists d, dv, pv. split; [reflexivity|]. split; [exact Ed|].
  split; [exact Ep|].
  unfold PriceBefore.csv_row. cbn [py_getitem_str].
  rewrite Ed, Ep. reflexivity.
Qed.

Lemma write_entries_dated (t b : str) (entries : list pyval) :
  Forall (mapping_with (u "date") (u "price")) entries ->
  forall written,
    PriceBefore.write_entries t b entries written =
    (written ++ map (entry_row t b) entries, Ok tt).
Proof.
  induction 1 as [| entry rest He _ IH]; intros written.
  - cbn. rewrite app_nil_r. reflexivity.
  - destruct (csv_row_dated t b He) as [d [dv [pv [_ [_ [_ R]]]]]].
    cbn [PriceBefore.write_entries map]. unfold entry_row at 1.
    rewrite R, IH, <- app_assoc. reflexivity.
Qed.

Lemma write_products_dated (all : list PriceBefore.product_data) :
  Forall (fun pd => Forall (mapping_with (u "date") (u "price"))
                      (PriceBefore.price_data pd)) all ->
  forall written,
    PriceBefore.write_products all written =
    (written ++ flat_map product_rows all, Ok tt).
Proof.
  induction 1 as [| pd rest Hpd _ IH]; intros written.
  - cbn. rewrite app_nil_r. reflexivity.
  - cbn [PriceBefore.write_products flat_map].
    rewrite (write_entries_dated _ _ Hpd), IH, <- app_assoc.
    reflexivity.
Qed.

(** X10: when every entry of every record is a mapping that has the keys
    'date' and 'price' (in any order, among any other keys) and the file
    can be written, [save_to_csv] returns true and writes the header
    followed by one row of four fields per entry: the record's title,
    its brand, the entry's value under 'date' and its value under
    'price'; the records come in the order given and each record's
    entries in their order.  When the file cannot be opened it writes
    nothing and returns false. *)
Theorem save_to_csv_rows (all : list PriceBefore.product_data) :
  Forall (fun pd => Forall (mapping_with (u "date") (u "price"))
                      (PriceBefore.price_data pd)) all ->
  PriceBefore.save_to_csv true all =
    (PriceBefore.header :: flat_map product_rows all, true) /\
  Forall (fun row => length row = 4%nat)
    (PriceBefore.header :: flat_map product_rows all) /\
  (forall pd entry,
     In pd all -> In entry (PriceBefore.price_data pd) ->
     exists d dv pv,
       entry = PDict d /\
       lookup (u "date") d = Some dv /\
       lookup (u "price") d = Some pv /\
       entry_row (PriceBefore.title pd) (PriceBefore.brand pd) entry =
         [PStr (PriceBefore.title pd); PStr (PriceBefore.brand pd);
          dv; pv]) /\
  PriceBefore.save_to_csv false all = ([], false).
Proof.
  intros H.
  assert (R : forall pd entry,
             In pd all -> In entry (PriceBefore.price_data pd) ->
             exists d dv pv,
               entry = PDict d /\
               lookup (u "date") d = Some dv /\
               lookup (u "price") d = Some pv /\
               entry_row (PriceBefore.title pd) (PriceBefore.brand pd)
                 entry =
               [PStr (PriceBefore.title pd); PStr (PriceBefore.brand pd);
                dv; pv]).
  { intros pd entry Hpd He.
    rewrite Forall_forall in H. specialize (H pd Hpd).
    rewrite Forall_forall in H. specialize (H entry He).
    destruct (csv_row_dated (PriceBefore.title pd) (PriceBefore.brand pd)
                H) as [d [dv [pv [E [Ed [Ep Er]]]]]].
    exists d, dv, pv. unfold entry_row. rewrite Er. auto. }
  split; [|split; [|split; [exact R | reflexivity]]].
  - unfold PriceBefore.save_to_csv.
    rewrite (write_products_dated H). reflexivity.
  - constructor; [reflexivity|].
    apply Forall_forall. intros row Hin.
    apply in_flat_map in Hin. destruct Hin as [pd [Hpd Hrow]].
    unfold product_rows in Hrow. apply in_map_iff in Hrow.
    destruct Hrow as [entry [<- He]].
    destruct (R pd entry Hpd He) as [d [dv [pv [_ [_ [_ ->]]]]]].
    reflexivity.
Qed.

Lemma save_to_csv_rows_witness :
  PriceBefore.save_to_csv true
    [ {| PriceBefore.title := u "Phone"; PriceBefore.brand := u "Acme";
         PriceBefore.price_data :=
           [ PriceBefore.point (PStr (u "2023-01-01")) (PInt 999);
             loose_entry ] |} ] =
    ( [ PriceBefore.header;
        [PStr (u "Phone"); PStr (u "Acme"); PStr (u "2023-01-01");
         PInt 999];
        [PStr (u "Phone"); PStr (u "Acme"); PStr (u "d"); PInt 1] ],
      true).
Proof.
  apply (@save_to_csv_rows
           [ {| PriceBefore.title := u "Phone";
                PriceBefore.brand := u "Acme";
                PriceBefore.price_data :=
                  [ PriceBefore.point (PStr (u "2023-01-01")) (PInt 999);
                    loose_entry ] |} ]).
  constructor; [|constructor].
  constructor; [|constructor; [|constructor]].
  - eexists. split; [reflexivity|]. simpl. auto.
  - eexists. split; [reflexivity|]. simpl. auto.
Defined.

(** The tally of the results read so far. *)
Lemma collect_from (results : list (option PriceBefore.product_data)) :
  forall t,
    fold_left PriceBefore.count_result results t =
    {| PriceBefore.all_data :=
         PriceBefore.all_data t ++ flat_map kept results;
       PriceBefore.successful :=
         PriceBefore.successful t +
         Z.of_nat (length (flat_map kept results));
       PriceBefore.failed :=
         PriceBefore.failed t +
         (Z.of_nat (length results) -
          Z.of_nat (length (flat_map kept results))) |}.
Proof.
  induction results as [| r rest IH]; intros t.
  - cbn. destruct t. cbn. rewrite app_nil_r. f_equal; lia.
  - cbn [fold_left flat_map]. rewrite IH.
    unfold PriceBefore.count_result, kept.
    destruct r as [pd |]; [destruct (PriceBefore.price_data pd)|];
      cbn [PriceBefore.all_data PriceBefore.successful PriceBefore.failed
           app];
      rewrite ?length_app, <- ?app_assoc; cbn [length app];
      f_equal; lia.
Qed.

(** X11: whatever the workers return, and in whatever order they
    complete, the tally of [scrape_multiple_products] counts every URL
    once, as a success or as a failure; the successes are the records
    kept, and every record kept has a non-empty series. *)
Theorem collect_tally (results : list (option PriceBefore.product_data)) :
  let t := PriceBefore.collect results in
  PriceBefore.successful t + PriceBefore.failed t =
    Z.of_nat (length results) /\
  PriceBefore.successful t = Z.of_nat (length (PriceBefore.all_data t)) /\
  0 <= PriceBefore.failed t /\
  PriceBefore.all_data t = flat_map kept results /\
  Forall (fun pd => PriceBefore.price_data pd <> [])
    (PriceBefore.all_data t).
Proof.
  unfold PriceBefore.collect. rewrite collect_from.
  cbn [PriceBefore.all_data PriceBefore.successful PriceBefore.failed app].
  assert (L : (length (flat_map kept results) <= length results)%nat).
  { apply flat_map_short. intros [pd |]; cbn; [|lia].
    destruct (PriceBefore.price_data pd); cbn; lia. }
  repeat split; try lia.
  apply Forall_forall. intros pd Hin. apply in_flat_map in Hin.
  destruct Hin as [r [_ Hr]]. unfold kept in Hr.
  destruct r as [pd' |]; [|destruct Hr].
  destruct (PriceBefore.price_data pd') eqn:E; [destruct Hr|].
  destruct Hr as [<- | []]. rewrite E. discriminate.
Qed.

Section RunFacts.

Variable unicode_isalnum : Z -> bool.
Variable re_findall : string -> list re_flag -> str -> list str.
Variable json_loads : str -> exc pyval.

Lemma process_all_writable (fuel : nat) (ws : list PriceBefore.world) :
  Forall (fun w => randint_in_range (PriceBefore.random w)) ws ->
  (1007 <= fuel)%nat ->
  exists pds,
    PriceBefore.process_all unicode_isalnum re_findall json_loads fuel ws
      = Some (map Some pds) /\
    length pds = length ws /\
    Forall writable_record pds.
Proof.
  intros H Hf. induction H as [| w rest Hw _ IH].
  - exists []. cbn. auto.
  - destruct IH as [pds [E [L F]]].
    destruct (@extract_chart_data_advanced_writable unicode_isalnum
                re_findall json_loads w fuel Hw Hf) as [pd [Epd Wpd]].
    exists (pd :: pds). cbn [PriceBefore.process_all].
    unfold PriceBefore.process_single_url. rewrite Epd, E.
    cbn [map length]. auto.
Qed.

Lemma kept_writable (pds : list PriceBefore.product_data) :
  Forall writable_record pds -> flat_map kept (map Some pds) = pds.
Proof.
  induction 1 as [| pd rest [N _] _ IH]; [reflexivity|].
  cbn [map flat_map]. rewrite IH. unfold kept.
  destruct (PriceBefore.price_data pd); [congruence | reflexivity].
Qed.

(** X12: a run over any non-empty list of URLs, with a writable output
    file, fails for none of them: every URL yields a record, at worst a
    synthetic one, the function returns one record per URL and counts no
    failure.  With an output file that cannot be written the same run
    returns [None]. *)
Theorem scrape_multiple_products_all (fuel : nat)
    (ws : list PriceBefore.world) :
  Forall (fun w => randint_in_range (PriceBefore.random w)) ws ->
  (1007 <= fuel)%nat ->
  ws <> [] ->
  exists results pds,
    PriceBefore.process_all unicode_isalnum re_findall json_loads fuel ws
      = Some results /\
    PriceBefore.scrape_multiple_products true results = Some pds /\
    length pds = length ws /\
    Forall writable_record pds /\
    PriceBefore.failed (PriceBefore.collect results) = 0 /\
    PriceBefore.scrape_multiple_products false results = None.
Proof.
  intros H Hf Hne.
  destruct (process_all_writable H Hf) as [pds [E [L F]]].
  exists (map Some pds), pds.
  assert (A : PriceBefore.all_data (PriceBefore.collect (map Some pds))
              = pds).
  { unfold PriceBefore.collect. rewrite collect_from.
    cbn [PriceBefore.all_data app]. apply kept_writable. exact F. }
  assert (W : Forall (fun pd => Forall is_point (PriceBefore.price_data pd))
                pds).
  { apply (Forall_impl _ (fun pd (H0 : writable_record pd) => proj2 H0)).
    exact F. }
  split; [exact E|].
  unfold PriceBefore.scrape_multiple_products. rewrite A.
  destruct pds as [| pd rest].
  { destruct ws; [congruence | discriminate L]. }
  repeat split; try assumption.
  - unfold PriceBefore.save_to_csv.
    rewrite (write_products_points W). reflexivity.
  - unfold PriceBefore.collect. rewrite collect_from.
    cbn [PriceBefore.failed]. rewrite (kept_writable F), length_map. lia.
Qed.

End RunFacts.

Lemma scrape_multiple_products_all_witness :
  exists results pds,
    PriceBefore.process_all (fun _ => false) (fun _ _ _ => [])
      (fun _ => Raise JSONDecodeError) 1007 [dead_world; dead_world]
      = Some results /\
    PriceBefore.scrape_multiple_products true results = Some pds /\
    length pds = 2%nat /\
    Forall writable_record pds /\
    PriceBefore.failed (PriceBefore.collect results) = 0 /\
    PriceBefore.scrape_multiple_products false results = None.
Proof.
  apply (@scrape_multiple_products_all (fun _ => false) (fun _ _ _ => [])
           (fun _ => Raise JSONDecodeError) 1007 [dead_world; dead_world]).
  - constructor; [intros k; simpl; lia|].
    constructor; [intros k; simpl; lia | constructor].
  - apply le_n.
  - discriminate.
Defined.

(** * The URL list *)

Lemma lstrip_no_lead (s : str) : no_lead (PriceBefore.lstrip s).
Proof.
  induction s as [| c s IH]; [exact I|].
  cbn [PriceBefore.lstrip]. destruct (py_isspace c) eqn:C; [exact IH|].
  exact C.
Qed.

Lemma no_lead_lstrip (s : str) : no_lead s -> PriceBefore.lstrip s = s.
Proof.
  destruct s as [| c s]; [reflexivity|]. cbn. intros ->. reflexivity.
Qed.

Lemma lstrip_app_last (a : str) (c : Z) :
  py_isspace c = false ->
  PriceBefore.lstrip (a ++ [c]) = PriceBefore.lstrip a ++ [c].
Proof.
  intros C. induction a as [| x a IH]; cbn [app PriceBefore.lstrip].
  - rewrite C. reflexivity.
  - destruct (py_isspace x); [exact IH | reflexivity].
Qed.

Lemma no_lead_app (a b : str) : a <> [] -> no_lead a -> no_lead (a ++ b).
Proof. destruct a; [congruence | auto]. Qed.

(** [strip()] leaves no white space at either end, and changes nothing
    in a text that has none there. *)
Lemma py_strip_stripped (s : str) : stripped (PriceBefore.py_strip s).
Proof.
  unfold stripped, PriceBefore.py_strip. split.
  - pose proof (lstrip_no_lead s) as H.
    destruct (PriceBefore.lstrip s) as [| c t]; [exact I|].
    cbn [rev]. cbn in H. rewrite (@lstrip_app_last (rev t) c H), rev_unit.
    exact H.
  - rewrite rev_involutive. apply lstrip_no_lead.
Qed.

Lemma stripped_fixed (s : str) : stripped s -> PriceBefore.py_strip s = s.
Proof.
  intros [H1 H2]. unfold PriceBefore.py_strip.
  rewrite (@no_lead_lstrip s H1), (@no_lead_lstrip (rev s) H2).
  apply rev_involutive.
Qed.

Lemma rev_nonempty (A : Type) (l : list A) : l <> [] -> rev l <> [].
Proof.
  destruct l as [| x l]; [congruence|]. intros _ H.
  apply (f_equal (@length A)) in H. cbn [rev] in H.
  rewrite length_app in H. cbn in H. lia.
Qed.

Lemma base_url_line_ok (line : str) :
  line <> [] -> stripped line -> url_ok (PriceBefore.base_url ++ line).
Proof.
  intros N [H1 H2]. split; [discriminate|]. split; [split|].
  - reflexivity.
  - rewrite rev_app_distr. apply no_lead_app; [|exact H2].
    apply rev_nonempty. exact N.
  - split; reflexivity.
Qed.

Lemma read_lines_ok (lines : list (exc str)) :
  forall urls, Forall url_ok urls ->
  Forall url_ok (PriceBefore.read_lines lines urls).
Proof.
  induction lines as [| [line | e] rest IH]; intros urls H;
    cbn [PriceBefore.read_lines]; try exact H.
  pose proof (py_strip_stripped line) as S.
  destruct (PriceBefore.py_strip line) as [| c l] eqn:E; [apply IH; exact H|].
  destruct (str_prefix (u "#") (c :: l)) eqn:P1; cbn [negb];
    [apply IH; exact H|].
  destruct (str_prefix (u "/") (c :: l)) eqn:P2; apply IH;
    apply Forall_app; (split; [exact H|]);
    (constructor; [|apply Forall_nil]).
  - apply base_url_line_ok; [discriminate | exact S].
  - split; [discriminate|]. auto.
Qed.

Lemma read_lines_again (urls : list str) :
  Forall url_ok urls ->
  forall acc,
    PriceBefore.read_lines (map Ok urls) acc = acc ++ urls.
Proof.
  induction 1 as [| url rest [N [S [P1 P2]]] _ IH]; intros acc.
  - cbn. rewrite app_nil_r. reflexivity.
  - cbn [map PriceBefore.read_lines]. rewrite (stripped_fixed S).
    destruct url as [| c l]; [congruence|].
    rewrite P1, P2. cbn [negb]. rewrite IH, <- app_assoc. reflexivity.
Qed.

Lemma read_lines_length (lines : list (exc str)) :
  forall urls,
    (length (PriceBefore.read_lines lines urls)
       <= length urls + length lines)%nat.
Proof.
  induction lines as [| [line | e] rest IH]; intros urls;
    cbn [PriceBefore.read_lines length]; try lia.
  destruct (PriceBefore.py_strip line) as [| c l];
    [specialize (IH urls); lia|].
  destruct (negb (str_prefix (u "#") (c :: l)));
    [|specialize (IH urls); lia].
  destruct (str_prefix (u "/") (c :: l));
    match goal with
    | |- context [PriceBefore.read_lines rest ?a] =>
        specialize (IH a); rewrite length_app in IH; cbn [length] in IH; lia
    end.
Qed.

(** X13: every URL [read_mobile_urls] returns is non-empty, has no white
    space around it and begins neither with [#] nor with [/] (a relative
    line has been prefixed with the base URL); there are at most as many
    URLs as lines, and none when the file cannot be opened. *)
Theorem read_mobile_urls_ok (file : exc (list (exc str))) :
  Forall url_ok (PriceBefore.read_mobile_urls file) /\
  (length (PriceBefore.read_mobile_urls file) <=
     match file with Ok lines => length lines | Raise _ => 0 end)%nat.
Proof.
  destruct file as [lines | e]; cbn [PriceBefore.read_mobile_urls].
  - split; [apply read_lines_ok; constructor|].
    apply (read_lines_length lines []).
  - split; [constructor | apply le_n].
Qed.

(** X14: the URL list is a fixed point of the reader: reading the URLs
    it returned, one per line, returns the same URLs in the same order,
    so comments, blank lines and relative paths are resolved once and for
    all. *)
Theorem read_mobile_urls_again (file : exc (list (exc str))) :
  PriceBefore.read_mobile_urls
    (Ok (map Ok (PriceBefore.read_mobile_urls file))) =
  PriceBefore.read_mobile_urls file.
Proof.
  assert (H : Forall url_ok (PriceBefore.read_mobile_urls file)).
  { destruct file as [lines | e]; cbn [PriceBefore.read_mobile_urls];
      [apply read_lines_ok|]; constructor. }
  generalize dependent (PriceBefore.read_mobile_urls file).
  intros urls H. cbn [PriceBefore.read_mobile_urls].
  rewrite (read_lines_again H). reflexivity.
Qed.

(** * The brand of a record *)

Section BrandFacts.

Variable unicode_isalnum : Z -> bool.
Variable re_findall : string -> list re_flag -> str -> list str.
Variable json_loads : str -> exc pyval.

Lemma keep_word_hyphen_chars (w : str) :
  Forall (fun c => PriceBefore.is_word unicode_isalnum c || (c =? 45)
                   = true)
         (keep_word_hyphen unicode_isalnum w).
Proof.
  apply Forall_forall. intros c H. unfold keep_word_hyphen in H.
  apply filter_In in H. apply H.
Qed.

Lemma info_brand_ok (page : PriceBefore.soup) :
  brand_ok unicode_isalnum
    (PriceBefore.info_brand
       (PriceBefore.extract_product_info unicode_isalnum page)).
Proof.
  unfold PriceBefore.extract_product_info. cbn [PriceBefore.info_brand].
  match goal with
  | |- context [match ?t with Some _ => _ | None => _ end] =>
      destruct t as [[| c s] |]
  end; try (left; reflexivity).
  rewrite brand_of_title_token. cbn [PriceBefore.or_default].
  destruct (keep_word_hyphen unicode_isalnum (first_token (c :: s)))
    as [| x k] eqn:K; [left; reflexivity|].
  right. rewrite <- K. apply keep_word_hyphen_chars.
Qed.

Lemma selenium_title_brand_ok (b : PriceBefore.browser)
    (pd : PriceBefore.product_data) :
  brand_ok unicode_isalnum (PriceBefore.brand pd) ->
  brand_ok unicode_isalnum
    (PriceBefore.brand (PriceBefore.selenium_title unicode_isalnum b pd)).
Proof.
  intros H. unfold PriceBefore.selenium_title.
  destruct (PriceBefore.h1_text b) as [text |]; [|exact H].
  cbn [PriceBefore.set_title PriceBefore.title].
  pose proof (py_split_first_token (PriceBefore.py_strip text)) as P.
  destruct (PriceBefore.py_split (PriceBefore.py_strip text)) as [| w ws];
    [exact H|].
  subst w. cbn [PriceBefore.set_brand PriceBefore.brand].
  rewrite clean_word by apply take_token_no_space.
  right. apply keep_word_hyphen_chars.
Qed.

Lemma method_requests_brand_ok (w : PriceBefore.world)
    (pd : PriceBefore.product_data) :
  brand_ok unicode_isalnum (PriceBefore.brand pd) ->
  brand_ok unicode_isalnum
    (PriceBefore.brand
       (fst (PriceBefore.method_requests unicode_isalnum re_findall
               json_loads w pd))).
Proof.
  intros H. unfold PriceBefore.method_requests.
  destruct (PriceBefore.http_get w) as [[status text] |]; [|exact H].
  destruct (status =? 200); [|exact H].
  destruct (PriceBefore.parse_html w text) as [page |]; [|exact H].
  destruct (PriceBefore.extract_price_from_html re_findall json_loads text);
    cbn [fst PriceBefore.set_price_data PriceBefore.set_info
         PriceBefore.brand]; apply info_brand_ok.
Qed.

Lemma method_selenium_brand_ok (w : PriceBefore.world)
    (pd : PriceBefore.product_data) :
  brand_ok unicode_isalnum (PriceBefore.brand pd) ->
  brand_ok unicode_isalnum
    (PriceBefore.brand (PriceBefore.method_selenium unicode_isalnum w pd)).
Proof.
  intros H. unfold PriceBefore.method_selenium.
  destruct (PriceBefore.driver w) as [b |]; [|exact H].
  destruct (PriceBefore.page_load b); [|exact H].
  pose proof (@selenium_title_brand_ok b pd H) as H'.
  destruct (chart_data <- PriceBefore.script_result b ;;
            PriceBefore.chart_points chart_data) as [[l |] |];
    cbn [PriceBefore.set_price_data PriceBefore.brand]; exact H'.
Qed.

(** X15: the brand of the record of any URL is either the placeholder
    "Unknown Brand" or a text made of word characters (alphanumerics and
    the underscore) and hyphens only, possibly empty: it never holds
    white space, a comma, a quote or a line break. *)
Theorem extract_chart_data_advanced_brand (w : PriceBefore.world)
    (fuel : nat) :
  randint_in_range (PriceBefore.random w) ->
  (1007 <= fuel)%nat ->
  exists pd,
    PriceBefore.extract_chart_data_advanced unicode_isalnum re_findall
      json_loads fuel w = Some (Ok pd) /\
    brand_ok unicode_isalnum (PriceBefore.brand pd).
Proof.
  intros Hr Hf. unfold PriceBefore.extract_chart_data_advanced.
  assert (B0 : brand_ok unicode_isalnum
                 (PriceBefore.brand PriceBefore.initial_product_data))
    by (left; reflexivity).
  pose proof (@method_requests_brand_ok w _ B0) as B1.
  destruct (PriceBefore.method_requests unicode_isalnum re_findall
              json_loads w PriceBefore.initial_product_data)
    as [pd [|]]; cbn [fst] in B1.
  - exists pd. split; [reflexivity | exact B1].
  - pose proof (@method_selenium_brand_ok w pd B1) as B2.
    destruct (PriceBefore.price_data
                (PriceBefore.method_selenium unicode_isalnum w pd)).
    + destruct (generate_sample_price_data_nonempty Hr Hf) as [l [G _]].
      rewrite G. eexists. split; [reflexivity | exact B2].
    + eexists. split; [reflexivity | exact B2].
Qed.

End BrandFacts.

Lemma extract_chart_data_advanced_brand_witness :
  exists pd,
    PriceBefore.extract_chart_data_advanced (fun _ => false)
      (fun _ _ _ => []) (fun _ => Raise JSONDecodeError) 1007 dead_world
      = Some (Ok pd) /\
    brand_ok (fun _ => false) (PriceBefore.brand pd).
Proof.
  apply (@extract_chart_data_advanced_brand (fun _ => false)
           (fun _ _ _ => []) (fun _ => Raise JSONDecodeError)
           dead_world 1007).
  - intros k. simpl. lia.
  - apply le_n.
Defined.

(** * More on the extractors *)

Section ExtractorFacts.

Variable unicode_lower : str -> str.
Variable unicode_isalnum : Z -> bool.
Variable re_findall : string -> list re_flag -> str -> list str.
Variable json_loads : str -> exc pyval.

(** X16: what [extract_from_page_source] returns is [None] or a mapping
    with the keys 'labels' and 'data' that passes the validator again,
    so the second validation in [scrape_price_history] never rejects
    it. *)
Theorem extract_from_page_source_series
    (page : exc (list (option str))) :
  exists v,
    extract_from_page_source unicode_lower re_findall json_loads page
      = Ok v /\
    none_or_series v /\
    (v <> PNone -> validate_price_data v = Ok true).
Proof.
  assert (G : exists v,
             extract_from_page_source unicode_lower re_findall json_loads
               page = Ok v /\ none_or_series v).
  { unfold extract_from_page_source.
    destruct page as [scripts |]; cbn [bind catch];
      [| exists PNone; split; [reflexivity | left; reflexivity]].
    rewrite scan_scripts_first. cbn [bind].
    destruct (first_accepted json_loads _) as [data |];
      cbn [option_map catch].
    - eexists. split; [reflexivity|]. right. apply normalise_series.
    - exists PNone. split; [reflexivity | left; reflexivity]. }
  destruct G as [v [E S]]. exists v. split; [exact E|].
  split; [exact S|]. intros N. destruct S as [-> | M]; [contradiction|].
  apply (format_series_unchanged unicode_lower M).
Qed.

(** X17: a mapping with the keys 'dates' and 'prices' that lacks the
    labels/data pair is normalised by renaming: 'labels' takes the value
    of 'dates' and 'data' the value of 'prices', whatever those values
    are, and no [KeyError] is raised. *)
Theorem format_price_data_dates_prices (d : list (str * pyval)) :
  In (u "dates") (map fst d) ->
  In (u "prices") (map fst d) ->
  ~ (In (u "labels") (map fst d) /\ In (u "data") (map fst d)) ->
  exists dates prices,
    lookup (u "dates") d = Some dates /\
    lookup (u "prices") d = Some prices /\
    format_price_data unicode_lower (PDict d) =
      Ok (PDict [(u "labels", dates); (u "data", prices)]).
Proof.
  rewrite <- !has_key_In. intros D1 D2 N.
  destruct (has_key_lookup _ _ D1) as [dates Ed].
  destruct (has_key_lookup _ _ D2) as [prices Ep].
  exists dates, prices. split; [exact Ed|]. split; [exact Ep|].
  unfold format_price_data.
  cbn [isinstance_dict py_in andM bind py_getitem_str].
  rewrite D1, D2, Ed, Ep.
  destruct (has_key (u "labels") d);
    [destruct (has_key (u "data") d); [elim N; auto|]|]; reflexivity.
Qed.

(** X18: when the browser loads the page and finds an [h1], its
    stripped text becomes the title of the record, even when it is
    empty: the placeholder "Unknown Product" is not put back, and a title
    without a word leaves the brand as it was. *)
Theorem method_selenium_title (w : PriceBefore.world)
    (b : PriceBefore.browser) (text : str)
    (pd : PriceBefore.product_data) :
  PriceBefore.driver w = Some b ->
  PriceBefore.page_load b = Ok tt ->
  PriceBefore.h1_text b = Ok text ->
  PriceBefore.title (PriceBefore.method_selenium unicode_isalnum w pd) =
    PriceBefore.py_strip text /\
  (PriceBefore.py_split (PriceBefore.py_strip text) = [] ->
   PriceBefore.brand (PriceBefore.method_selenium unicode_isalnum w pd) =
     PriceBefore.brand pd).
Proof.
  intros Hd Hl Ht. unfold PriceBefore.method_selenium.
  rewrite Hd, Hl. unfold PriceBefore.selenium_title. rewrite Ht.
  cbn [PriceBefore.set_title PriceBefore.title].
  destruct (chart_data <- PriceBefore.script_result b ;;
            PriceBefore.chart_points chart_data) as [[l |] |];
    (destruct (PriceBefore.py_split (PriceBefore.py_strip text));
     (split; [reflexivity | intros H; try discriminate H; reflexivity])).
Qed.

End ExtractorFacts.

Lemma format_price_data_dates_prices_witness :
  exists dates prices,
    lookup (u "dates")
      [(u "dates", PList [PStr (u "d1")]); (u "prices", PList [PInt 5])]
      = Some dates /\
    lookup (u "prices")
      [(u "dates", PList [PStr (u "d1")]); (u "prices", PList [PInt 5])]
      = Some prices /\
    format_price_data (fun s => s)
      (PDict [(u "dates", PList [PStr (u "d1")]);
              (u "prices", PList [PInt 5])]) =
      Ok (PDict [(u "labels", dates); (u "data", prices)]).
Proof.
  apply (@format_price_data_dates_prices (fun s => s)
           [(u "dates", PList [PStr (u "d1")]);
            (u "prices", PList [PInt 5])]).
  - simpl. auto.
  - simpl. auto.
  - simpl. intros [[H | [H | []]] _]; discriminate H.
Defined.

Lemma method_selenium_title_witness :
  PriceBefore.title
    (PriceBefore.method_selenium (fun _ => false) blank_h1_world
       PriceBefore.initial_product_data) = [] /\
  PriceBefore.brand
    (PriceBefore.method_selenium (fun _ => false) blank_h1_world
       PriceBefore.initial_product_data) = u "Unknown Brand".
Proof.
  destruct (@method_selenium_title (fun _ => false) blank_h1_world
              blank_h1_browser (u "   ") PriceBefore.initial_product_data
              eq_refl eq_refl eq_refl) as [T B].
  split; [exact T | apply B; reflexivity].
Defined.
